(** * c3d-book: the spectrum peak-fitting pipeline and the ML-demo helpers

    A shallow embedding of the Python glue code of the course notebooks:

    - [book/1-chem_data/spectrum_analysis.ipynb]: the peak-shape functions
      [gaussian] and [lorentzian], and the hand-written R² computation;
    - the per-peak [curve_fit] loop of the code snippet [run_curve_fits];
    - [book/3-ml_intro/ML_demo.ipynb]: [getMolDescriptors] and
      [get_smiles_from_name].

    Conventions.  A Python [float] or numpy [float64] is a binary64
    floating-point number ([float] of the Standard Library): [+], [-], [*],
    [/] and [sqrt] round to nearest-even, and overflow, signed zeros and NaN
    behave as in IEEE 754.  A numpy array or pandas Series is a
    [list float].  A Python [dict] with string keys is a [gmap string _].
    Code that can raise returns a [result]; code with side effects threads
    the state it touches.  The routines the glue calls and does not define
    are Section variables: the scalar power, [np.log] and [np.exp], the
    reductions [Series.sum] and [Series.mean],
    [scipy.optimize.curve_fit], the RDKit descriptor functions and
    [requests.get]. *)

From Stdlib Require Import List ZArith Lia Bool String Floats.
From stdpp Require Import base option list gmap strings pretty.

Set Warnings "-inexact-float".

(** ** Python exceptions and fallible results *)

Inductive exn : Type :=
| KeyError (key : string)
| IndexError
| ValueError (msg : string)
| OverflowError (msg : string)
| RuntimeError (msg : string)
| OtherError (msg : string).

Inductive result (A : Type) : Type :=
| Ok (a : A)
| Raise (e : exn).
Arguments Ok {A} a.
Arguments Raise {A} e.

Definition rbind {A B : Type} (m : result A) (k : A -> result B) : result B :=
  match m with
  | Ok a => k a
  | Raise e => Raise e
  end.

Declare Scope result_scope.
Delimit Scope result_scope with result.
Notation "x <- m ;;; k" := (rbind m (fun x => k))
  (at level 100, m at next level, right associativity) : result_scope.

(** ** Peak-shape model ([spectrum_analysis.ipynb]) *)

Module PeakShape.
Local Open Scope float_scope.
Local Open Scope result_scope.

(** [np.pi]: the binary64 number nearest to π, 3.141592653589793. *)
Definition np_pi : float := 0x1.921fb54442d18p+1.

(** One element of [a ** 2] for an array [a]: numpy evaluates an array
    raised to the scalar 2 as the product of each element with itself. *)
Definition square (v : float) : float := v * v.


Section Libm.

(** [a ** b] for two scalars: the C library's [pow].  When the result
    overflows, the power of a Python [float] raises [OverflowError] and
    that of a numpy scalar is infinity; which of the two the functions
    meet depends on the arguments they are called with. *)
Variable scalar_pow : float -> float -> result float.

(** [np.log] and [np.exp] *)
Variable np_log : float -> float.
Variable np_exp : float -> float.

(** [gaussian(x_array, ampl, centre, width)] at one position [x] of the
    array [x_array].  Unary minus binds tighter than the division. *)
Definition gaussian (x ampl centre width : float) : result float :=
  let sigma := width / sqrt (8 * np_log 2) in
  sigma_2 <- scalar_pow sigma 2 ;;;
  Ok (ampl * (1 / (sigma * sqrt (2 * np_pi)))
           * np_exp (- square (x - centre) / (2 * sigma_2))).

(** [lorentzian(x_array, ampl, centre, width)] at one position [x] of the
    array [x_array]. *)
Definition lorentzian (x ampl centre width : float) : result float :=
  let h_width := width / 2 in
  h_width_2 <- scalar_pow h_width 2 ;;;
  Ok (ampl / np_pi * h_width / (square (x - centre) + h_width_2)).

(** The same functions over the whole array: the scalar sub-expressions
    are evaluated once, the array operations element by element. *)
Definition gaussian_array (x_array : list float) (ampl centre width : float)
  : result (list float) :=
  let sigma := width / sqrt (8 * np_log 2) in
  sigma_2 <- scalar_pow sigma 2 ;;;
  Ok (List.map
        (fun x => ampl * (1 / (sigma * sqrt (2 * np_pi)))
                  * np_exp (- square (x - centre) / (2 * sigma_2)))
        x_array).

Definition lorentzian_array (x_array : list float) (ampl centre width : float)
  : result (list float) :=
  let h_width := width / 2 in
  h_width_2 <- scalar_pow h_width 2 ;;;
  Ok (List.map
        (fun x => ampl / np_pi * h_width / (square (x - centre) + h_width_2))
        x_array).

End Libm.

(** Stand-ins for the C library, used to run the code on concrete data.
    Each is correctly rounded at the arguments the examples reach. *)

(** The power of numpy scalars at the exponent 2, the only one the code
    uses: no exception, infinity on overflow. *)
Definition pow_2 (v e : float) : result float :=
  if e =? 2 then Ok (v * v) else Ok nan.



End PeakShape.

(** ** Goodness of fit ([spectrum_analysis.ipynb], the R² cell) *)

Module Metrics.
Local Open Scope float_scope.
Local Open Scope result_scope.

(** Elementwise [a - b] of two arrays.  Operands of one length are
    subtracted position by position; a one-element operand is broadcast
    over the other; any other pair of lengths raises [ValueError]. *)
Definition sub (a b : list float) : result (list float) :=
  if Nat.eqb (length a) (length b) then Ok (zip_with PrimFloat.sub a b)
  else
    match a, b with
    | [a0], _ => Ok (List.map (fun v => a0 - v) b)
    | _, [b0] => Ok (List.map (fun v => v - b0) a)
    | _, _ => Raise (ValueError "operands could not be broadcast together")
    end.

(** Elementwise [a - c] with a scalar [c] broadcast over the array. *)
Definition sub_scalar (a : list float) (c : float) : list float :=
  List.map (fun v => v - c) a.

(** Elementwise [a ** 2] *)
Definition square (a : list float) : list float :=
  List.map PeakShape.square a.

Section Reductions.

(** [Series.sum()] and [Series.mean()]: the order in which pandas adds the
    elements is its own. *)
Variable sum : list float -> float.
Variable mean : list float -> float.

(** [SSR]: the sum of the squared residuals, the residuals being calculated
    minus observed, as the cell writes them. *)
Definition SSR (lor_spec_y intensity : list float) : result float :=
  residuals <- sub lor_spec_y intensity ;;;
  let squared_residuals := square residuals in
  Ok (sum squared_residuals).

(** [SST]: the total sum of squares of the observed intensities. *)
Definition SST (intensity : list float) : float :=
  sum (square (sub_scalar intensity (mean intensity))).

(** [r2 = 1-(SSR/SST)], the lines of the cell in their order. *)
Definition r2 (lor_spec_y intensity : list float) : result float :=
  ssr <- SSR lor_spec_y intensity ;;;
  let sst := SST intensity in
  Ok (1 - (ssr / sst)).

End Reductions.

(** Stand-ins for the two reductions, used to run the cell on concrete
    data: the elements are added from left to right. *)
Definition sum_sequential (a : list float) : float :=
  fold_left PrimFloat.add a 0.

Definition mean_sequential (a : list float) : float :=
  sum_sequential a / of_uint63 (Uint63.of_Z (Z.of_nat (length a))).

End Metrics.

(** ** The per-peak fitting loop (code snippet [run_curve_fits]) *)

Module FitLoop.
Local Open Scope float_scope.
Local Open Scope result_scope.

(** A fitted parameter vector [popt] and its covariance matrix [pcov]. *)
Definition popt_t : Type := list float.
Definition pcov_t : Type := list (list float).

(** The model function handed to [curve_fit]: [f(xdata, *params)]. *)
Definition model_t : Type :=
  list float -> float -> float -> float -> result (list float).

(** The two lists the loop appends to. *)
Record fit_state : Type := mk_fit_state {
  popt_list : list popt_t;
  pcov_list : list pcov_t
}.

(** How the cell ends: [display(popt_list, pcov_list)] is reached, or an
    exception leaves the cell uncaught. *)
Inductive cell_outcome : Type :=
| Displayed (popts : list popt_t) (pcovs : list pcov_t)
| Uncaught (e : exn).

(** [d[key]] on a dict or DataFrame of arrays *)
Definition getitem (d : gmap string (list float)) (key : string)
  : result (list float) :=
  match d !! key with
  | Some v => Ok v
  | None => Raise (KeyError key)
  end.

(** [a[pk]] on an array, for the non-negative [pk] of [range] *)
Definition index (a : list float) (pk : nat) : result float :=
  match a !! pk with
  | Some v => Ok v
  | None => Raise IndexError
  end.

(** The [p0=[...]] argument of the call, its sub-expressions evaluated left
    to right. *)
Definition initial_guess (peak_info : gmap string (list float)) (pk : nat)
  : result (list float) :=
  heights <- getitem peak_info "peak_heights" ;;;
  h <- index heights pk ;;;
  widths <- getitem peak_info "widths" ;;;
  w <- index widths pk ;;;
  centres <- getitem peak_info "centres" ;;;
  c <- index centres pk ;;;
  widths' <- getitem peak_info "widths" ;;;
  w' <- index widths' pk ;;;
  Ok [h * w; c; w'].

Section Loop.

(** The scalar power that [lorentzian] evaluates. *)
Variable scalar_pow : float -> float -> result float.

(** [scipy.optimize.curve_fit(f, xdata, ydata, p0)]: the optimised
    parameters and their covariance, or the exception it raises when the
    least-squares minimisation fails. *)
Variable curve_fit :
  model_t -> list float -> list float -> list float ->
  result (popt_t * pcov_t).

Variable nmr_spec : gmap string (list float).
Variable peak_info : gmap string (list float).

(** The call in the loop body, arguments evaluated in order. *)
Definition fit_peak (pk : nat) : result (popt_t * pcov_t) :=
  xdata <- getitem nmr_spec "ppm" ;;;
  ydata <- getitem nmr_spec "intensity" ;;;
  p0 <- initial_guess peak_info pk ;;;
  curve_fit (PeakShape.lorentzian_array scalar_pow) xdata ydata p0.

(** The [for] loop over the remaining values of [pk].  An exception leaves
    the loop at once; what was appended before stays appended. *)
Fixpoint fit_loop (pks : list nat) (st : fit_state) : fit_state * option exn :=
  match pks with
  | [] => (st, None)
  | pk :: rest =>
      match fit_peak pk with
      | Ok (popt, pcov) =>
          fit_loop rest
            (mk_fit_state (popt_list st ++ [popt]) (pcov_list st ++ [pcov]))
      | Raise e => (st, Some e)
      end
  end.

(** The whole cell: both lists start empty, [pk] runs over
    [range(len(peak_idx))], the lists are displayed at the end. *)
Definition run_curve_fits (peak_idx : list nat) : fit_state * cell_outcome :=
  let st0 := mk_fit_state [] [] in
  match fit_loop (seq 0 (length peak_idx)) st0 with
  | (st, None) => (st, Displayed (popt_list st) (pcov_list st))
  | (st, Some e) => (st, Uncaught e)
  end.

End Loop.

(** Stand-ins for the optimiser, used to run the loop on concrete data. *)

(** An optimiser that accepts its initial guess as the optimum. *)
Definition curve_fit_echo
  (f : model_t) (xdata ydata p0 : list float)
  : result (popt_t * pcov_t) :=
  Ok (p0, []).

(** An optimiser that does not converge when the initial centre is above
    30 ppm, and accepts its initial guess otherwise. *)
Definition curve_fit_picky
  (f : model_t) (xdata ydata p0 : list float)
  : result (popt_t * pcov_t) :=
  match p0 with
  | [_; c; _] =>
      if c <=? 30 then Ok (p0, [])
      else Raise (RuntimeError "Optimal parameters not found")
  | _ => Raise (OtherError "p0")
  end.

(** A two-peak example: candidates at samples 1 and 3 of a five-point
    spectrum, centres 58 and 18 ppm. *)
Definition demo_spec : gmap string (list float) :=
  <["ppm" := [60; 58; 40; 18; 0]]>
    (<["intensity" := [0; 9; 0; 7; 0]]> ∅).

Definition demo_peak_idx : list nat := [1%nat; 3%nat].

Definition demo_peak_info : gmap string (list float) :=
  <["peak_heights" := [9; 7]]>
    (<["widths" := [2; 3]]>
      (<["centres" := [58; 18]]> ∅)).

(** The claim that fit failures are local to one peak: whenever the fit of
    some peak raises, the cell still reaches its end, and every peak whose
    own fit succeeds has its result in the lists. *)
Definition failures_are_local
  (scalar_pow : float -> float -> result float)
  (curve_fit : model_t -> list float -> list float ->
               list float -> result (popt_t * pcov_t))
  (nmr_spec peak_info : gmap string (list float)) (peak_idx : list nat)
  : Prop :=
  forall (k : nat) (e : exn),
    (k < length peak_idx)%nat ->
    fit_peak scalar_pow curve_fit nmr_spec peak_info k = Raise e ->
    let '(st, out) :=
      run_curve_fits scalar_pow curve_fit nmr_spec peak_info peak_idx in
    (exists popts pcovs, out = Displayed popts pcovs) /\
    forall (j : nat) (popt : popt_t) (pcov : pcov_t),
      (j < length peak_idx)%nat ->
      fit_peak scalar_pow curve_fit nmr_spec peak_info j = Ok (popt, pcov) ->
      popt ∈ popt_list st /\ pcov ∈ pcov_list st.

End FitLoop.

(** ** The ML demo helpers ([ML_demo.ipynb]) *)

Module MLDemo.
Local Open Scope result_scope.
Local Open Scope string_scope.

(** The Python values a descriptor can have in the result dictionary. *)
Inductive pyval : Type :=
| PyNone
| PyInt (z : Z)
| PyFloat (x : float)
| PyStr (s : string).

(** [l[idx]] on a Python list: a negative index counts from the end, an
    index outside [-len(l), len(l)) raises [IndexError]. *)
Definition py_index {A : Type} (l : list A) (idx : Z) : result A :=
  let n := Z.of_nat (length l) in
  let i := if (idx <? 0)%Z then (idx + n)%Z else idx in
  if ((i <? 0) || (n <=? i))%Z then Raise IndexError
  else match l !! Z.to_nat i with
       | Some a => Ok a
       | None => Raise IndexError
       end.

(** A list comprehension whose element expression can raise. *)
Fixpoint comprehension {A B : Type} (f : A -> result B) (l : list A)
  : result (list B) :=
  match l with
  | [] => Ok []
  | a :: rest =>
      b <- f a ;;;
      bs <- comprehension f rest ;;;
      Ok (b :: bs)
  end.

Section Descriptors.

(** An RDKit molecule. *)
Variable mol : Type.

(** A descriptor function: it returns a value or raises. *)
Definition descriptor_fn : Type := mol -> result pyval.

(** [Descriptors._descList]: the toolkit's table of (name, function) pairs. *)
Variable _descList : list (string * descriptor_fn).

(** The [if not(descriptor_list): ... else: ...] that selects the
    descriptors.  [None] and the empty list are both falsy. *)
Definition select_descriptors (descriptor_list : option (list Z))
  : result (list (string * descriptor_fn)) :=
  match descriptor_list with
  | None | Some [] => Ok _descList
  | Some idxs => comprehension (py_index _descList) idxs
  end.

(** The [for nm,fn in descriptors] loop with its [try]/[except].  [printed]
    collects what [traceback.print_exc()] reports. *)
Fixpoint descriptor_loop (m : mol) (missingVal : pyval)
    (descriptors : list (string * descriptor_fn))
    (res : gmap string pyval) (printed : list exn)
  : gmap string pyval * list exn :=
  match descriptors with
  | [] => (res, printed)
  | (nm, fn) :: rest =>
      match fn m with
      | Ok val =>
          descriptor_loop m missingVal rest (<[nm := val]> res) printed
      | Raise e =>
          let val := missingVal in
          descriptor_loop m missingVal rest (<[nm := val]> res) (printed ++ [e])
      end
  end.

(** [getMolDescriptors(mol, descriptor_list=None, missingVal=None)] of the
    first part of the notebook: the dictionary it returns, with the
    tracebacks it printed. *)
Definition getMolDescriptors (m : mol) (descriptor_list : option (list Z))
    (missingVal : pyval) : result (gmap string pyval * list exn) :=
  let res : gmap string pyval := ∅ in
  descriptors <- select_descriptors descriptor_list ;;;
  Ok (descriptor_loop m missingVal descriptors res []).

(** The value the dictionary gets for one descriptor. *)
Definition descriptor_value (m : mol) (missingVal : pyval) (fn : descriptor_fn)
  : pyval :=
  match fn m with
  | Ok val => val
  | Raise _ => missingVal
  end.

End Descriptors.

Arguments select_descriptors {mol} _descList descriptor_list.
Arguments descriptor_loop {mol} m missingVal descriptors res printed.
Arguments getMolDescriptors {mol} _descList m descriptor_list missingVal.
Arguments descriptor_value {mol} m missingVal fn.

(** The exercise notebook stored in the same file defines
    [getMolDescriptors] a second time: only [descriptor_list is None] is
    handled, the [else] branch is [pass]. *)
Module Exercise.
Section Descriptors.

Variable mol : Type.
Variable _descList : list (string * descriptor_fn mol).

Definition getMolDescriptors (m : mol) (descriptor_list : option (list Z))
    (missingVal : pyval) : result (gmap string pyval * list exn) :=
  let res : gmap string pyval := ∅ in
  match descriptor_list with
  | None => Ok (descriptor_loop m missingVal _descList res [])
  | Some _ => Ok (res, [])
  end.

End Descriptors.

Arguments getMolDescriptors {mol} _descList m descriptor_list missingVal.

End Exercise.

(** A [requests.Response]: its truth value ([bool(response)], which the
    library defines as [response.ok]) and its body. *)
Record response : Type := mk_response {
  ok : bool;
  text : string
}.

(** What [get_smiles_from_name] does to the outside world. *)
Record world : Type := mk_world {
  requests_sent : list string;
  slept : list float;
  stdout : list string
}.

Section Cactus.

(** [requests.get(url)]: the response of the server, or the exception of a
    request that got no response. *)
Variable requests_get : string -> result response.

Definition get_smiles_from_name (name : string) (w : world)
  : result string * world :=
  let ROOT_URL := "https://cactus.nci.nih.gov/chemical/structure/" in
  let identifier := name in
  let representation := "smiles" in
  let query_url := ROOT_URL ++ identifier ++ "/" ++ representation in
  let w1 := mk_world (requests_sent w ++ [query_url]) (slept w) (stdout w) in
  match requests_get query_url with
  | Raise e => (Raise e, w1)
  | Ok response =>
      let w2 :=
        mk_world (requests_sent w1) (slept w1 ++ [0.05%float]) (stdout w1) in
      if ok response then (Ok (text response), w2)
      else
        let w3 := mk_world (requests_sent w2) (slept w2)
                    (stdout w2 ++ ["Failed to get SMILES for " ++ name]) in
        (Ok "not found", w3)
  end.

(** The URL the function asks for. *)
Definition query_url_of (name : string) : string :=
  "https://cactus.nci.nih.gov/chemical/structure/" ++ name ++ "/smiles".

End Cactus.

(** A server that knows ethanol and nothing else. *)
Definition cactus_demo (url : string) : result response :=
  if String.eqb url "https://cactus.nci.nih.gov/chemical/structure/ethanol/smiles"
  then Ok (mk_response true "CCO")
  else Ok (mk_response false "<h1>Page not found (404)</h1>").

Definition world0 : world := mk_world [] [] [].

(** A three-entry descriptor table over molecules given as SMILES strings;
    the second descriptor raises on the empty molecule. *)
Definition num_atoms : descriptor_fn string :=
  fun m => Ok (PyInt (Z.of_nat (String.length m))).

Definition first_atom : descriptor_fn string :=
  fun m => match m with
           | EmptyString => Raise (OtherError "empty molecule")
           | String a _ => Ok (PyStr (String a EmptyString))
           end.

Definition tpsa_zero : descriptor_fn string :=
  fun _ => Ok (PyFloat 0%float).

Definition demo_descList : list (string * descriptor_fn string) :=
  [("NumAtoms", num_atoms); ("FirstAtom", first_atom); ("TPSA", tpsa_zero)].

End MLDemo.

(** ** The rest of the peak analysis ([spectrum_analysis.ipynb]) *)

Module PeakReport.
Local Open Scope float_scope.

(** The tidy-up cell: the dict comprehension that keeps the entries of
    [peak_info] whose key is one of the three the fit uses. *)
Definition kept_keys : list string :=
  ["peak_heights"; "widths"; "centres"]%string.

Definition tidy_peak_info (peak_info : gmap string (list float))
  : gmap string (list float) :=
  filter (fun kv => kv.1 ∈ kept_keys) peak_info.

(** [np.diag(pcov)] of a rectangular two-dimensional array: the entries
    [pcov[i][i]], as far as both indices exist. *)
Fixpoint diag_from (i : nat) (pcov : list (list float)) : list float :=
  match pcov with
  | [] => []
  | row :: rest =>
      match row !! i with
      | Some v => v :: diag_from (S i) rest
      | None => []
      end
  end.

Definition diag (pcov : list (list float)) : list float := diag_from 0 pcov.

(** [errors = [np.sqrt(np.diag(pcov)) for pcov in pcov_list]] *)
Definition errors (pcov_list : list (list (list float))) : list (list float) :=
  List.map (fun pcov => List.map PrimFloat.sqrt (diag pcov)) pcov_list.

(** The line feed of the f-strings. *)
Definition newline : string := String (Ascii.ascii_of_nat 10) EmptyString.

Section Report.

(** Python's fixed-point formatting of a float, [f"{v:.3f}"] being
    [format_f 3 v]. *)
Variable format_f : nat -> float -> string.

(** The f-string of [report_peak_fit], its fields evaluated left to
    right. *)
Definition report_text (popt perr : list float) : result string :=
  (a <- FitLoop.index popt 0 ;;;
   ea <- FitLoop.index perr 0 ;;;
   c <- FitLoop.index popt 1 ;;;
   ec <- FitLoop.index perr 1 ;;;
   w <- FitLoop.index popt 2 ;;;
   ew <- FitLoop.index perr 2 ;;;
   Ok ("Amplitude: " ++ format_f 3 a ++ " +/- " ++ format_f 3 ea ++ newline
       ++ "Centre: " ++ format_f 4 c ++ " +/- " ++ format_f 4 ec ++ newline
       ++ "Width: " ++ format_f 4 w ++ " +/- " ++ format_f 4 ew ++ newline)
      %string)%result.

(** [report_peak_fit(popt, perr)]: what has been printed so far, with the
    report added, or the exception raised while the report was built. *)
Definition report_peak_fit (popt perr : list float) (stdout : list string)
  : list string * option exn :=
  match report_text popt perr with
  | Ok report => (stdout ++ [report], None)
  | Raise e => (stdout, Some e)
  end.

(** The loop [for i, pk in enumerate(popt_list)] from position [i] on. *)
Fixpoint report_loop (i : nat) (popt_list errors : list (list float))
    (stdout : list string) : list string * option exn :=
  match popt_list with
  | [] => (stdout, None)
  | pk :: rest =>
      let stdout1 := stdout ++ [("Peak " ++ pretty (i + 1)%nat)%string] in
      match errors !! i with
      | None => (stdout1, Some IndexError)
      | Some perr =>
          match report_peak_fit pk perr stdout1 with
          | (stdout2, None) => report_loop (S i) rest errors stdout2
          | (stdout2, Some e) => (stdout2, Some e)
          end
      end
  end.

(** The reporting cell. *)
Definition report_cell (popt_list : list (list float))
    (pcov_list : list (list (list float))) (stdout : list string)
  : list string * option exn :=
  report_loop 0 popt_list (errors pcov_list) stdout.

End Report.

(** [collate_fitted_peak_parameters(popt)]: [dict(zip(parameters, popt))],
    the pairs inserted in order. *)
Definition collate_fitted_peak_parameters (popt : list float)
  : gmap string float :=
  let parameters := ["ampl"; "centre"; "width"]%string in
  foldl (fun d kv => <[kv.1 := kv.2]> d) ∅ (zip parameters popt).

(** [fitted_peaks = [collate_fitted_peak_parameters(popt) for popt in
    popt_list]] *)
Definition fitted_peaks (popt_list : list (list float))
  : list (gmap string float) :=
  List.map collate_fitted_peak_parameters popt_list.

(** Stand-ins used to run the reporting cell on concrete data: an optimiser
    that accepts its three-parameter initial guess with the unit covariance,
    and a formatter that prints a placeholder. *)
Definition curve_fit_unit
  (f : FitLoop.model_t) (xdata ydata p0 : list float)
  : result (FitLoop.popt_t * FitLoop.pcov_t) :=
  match p0 with
  | [_; _; _] => Ok (p0, [[1; 0; 0]; [0; 1; 0]; [0; 0; 1]])
  | _ => Raise (OtherError "p0")
  end.

Definition format_placeholder (digits : nat) (v : float) : string := "#".

End PeakReport.

(** ** The descriptor table of the demo ([ML_demo.ipynb]) *)

Module DescriptorTable.

(** The five descriptors the demo selects. *)
Definition descriptor_list : list Z := [118; 119; 27; 28; 83]%Z.

Section Table.

Variable mol : Type.
Variable _descList : list (string * MLDemo.descriptor_fn mol).

(** [calc_descriptors = [getMolDescriptors(mol, descriptor_list=
    descriptor_list) for mol in bp_df["ROMol"]]]: per molecule, the
    dictionary and the tracebacks printed for it. *)
Definition calc_descriptors (ROMol : list mol)
  : result (list (gmap string MLDemo.pyval * list exn)) :=
  MLDemo.comprehension
    (fun m => MLDemo.getMolDescriptors _descList m (Some descriptor_list)
                MLDemo.PyNone)
    ROMol.

(** The exceptions of the descriptor functions that raise on [m], in the
    order of the list. *)
Definition raised (m : mol)
    (descriptors : list (string * MLDemo.descriptor_fn mol)) : list exn :=
  omap (fun d : string * MLDemo.descriptor_fn mol =>
          match d.2 m with
          | Ok _ => None
          | Raise e => Some e
          end) descriptors.

End Table.

Arguments calc_descriptors {mol} _descList ROMol.
Arguments raised {mol} m descriptors.

(** A table of 120 descriptors over molecules given as SMILES strings, used
    to run the demo's selection on concrete data. *)
Definition demo_table : list (string * MLDemo.descriptor_fn string) :=
  (fun i : nat => (("d" ++ pretty i)%string, MLDemo.first_atom))
    <$> seq 0 120.

End DescriptorTable.
(** * Properties *)

(** ** Binary64 arithmetic

    Facts of IEEE 754 arithmetic that the numeric code relies on, derived
    from the specification of the operations ([SpecFloat]). *)

Section Binary64.
Local Open Scope float_scope.

Lemma is_nan_spec (x : float) :
  is_nan x = match Prim2SF x with S754_nan => true | _ => false end.
Proof.
  unfold is_nan. rewrite FloatAxioms.eqb_spec. unfold SFeqb, SFcompare.
  destruct (Prim2SF x) as [s | s | | s m e]; try reflexivity.
  - destruct s; reflexivity.
  - destruct s; rewrite Z.compare_refl, Pos.compare_cont_refl; reflexivity.
Qed.

Lemma is_infinity_spec (x : float) :
  is_infinity x
  = match Prim2SF x with S754_infinity _ => true | _ => false end.
Proof.
  unfold is_infinity. rewrite FloatAxioms.eqb_spec, abs_spec.
  change (Prim2SF infinity) with (S754_infinity false).
  destruct (Prim2SF x) as [s | s | | s m e]; reflexivity.
Qed.

Lemma is_zero_spec (x : float) :
  is_zero x = match Prim2SF x with S754_zero _ => true | _ => false end.
Proof.
  unfold is_zero. rewrite FloatAxioms.eqb_spec.
  change (Prim2SF zero) with (S754_zero false).
  destruct (Prim2SF x) as [s | s | | s m e]; try reflexivity.
  - destruct s; reflexivity.
  - destruct s; reflexivity.
Qed.

Lemma is_finite_spec (x : float) :
  is_finite x
  = match Prim2SF x with
    | S754_zero _ | S754_finite _ _ _ => true
    | _ => false
    end.
Proof.
  unfold is_finite. rewrite is_nan_spec, is_infinity_spec.
  destruct (Prim2SF x); reflexivity.
Qed.


(** *** Subtraction: [x - x] is [+0] *)

Lemma shl_align_same (m : positive) (e : Z) :
  shl_align m e (Z.min e e) = (m, e).
Proof. unfold shl_align. rewrite Z.min_id, Z.sub_diag. reflexivity. Qed.

Lemma sub_self (x : float) : is_finite x = true -> x - x = zero.
Proof.
  rewrite is_finite_spec. intros Hfin.
  apply Prim2SF_inj. rewrite sub_spec.
  change (Prim2SF zero) with (S754_zero false).
  destruct (Prim2SF x) as [s | s | | s m e]; try discriminate.
  - destruct s; reflexivity.
  - unfold SF64sub, SFsub. rewrite shl_align_same. cbn [fst].
    rewrite Z.sub_diag. reflexivity.
Qed.

(** *** Rounding commutes with the sign *)

Lemma binary_round_aux_opp (s : bool) (m e : Z) (l : location) :
  binary_round_aux prec emax (negb s) m e l
  = SFopp (binary_round_aux prec emax s m e l).
Proof.
  unfold binary_round_aux.
  destruct (shr_fexp prec emax m e l) as [mrs' e'].
  destruct (shr_fexp prec emax _ e' loc_Exact) as [mrs'' e''].
  destruct (shr_m mrs'') as [| p | p]; try reflexivity.
  destruct (e'' <=? emax - prec)%Z; reflexivity.
Qed.

(** *** Adding [+0] changes nothing but [-0] *)


(** *** The square of a difference does not depend on its sign *)

Lemma SFmul_opp_opp (z : spec_float) :
  SF64mul (SFopp z) (SFopp z) = SF64mul z z.
Proof.
  destruct z as [s | s | | s m e]; cbn; try reflexivity;
    rewrite !xorb_nilpotent; reflexivity.
Qed.

Lemma binary_normalize_opp (m e : Z) :
  binary_normalize prec emax (- m) e false
  = match m with
    | Z0 => S754_zero false
    | _ => SFopp (binary_normalize prec emax m e false)
    end.
Proof.
  destruct m as [| p | p]; [reflexivity | |].
  - change (binary_normalize prec emax (- Z.pos p) e false)
      with (binary_round prec emax true p e).
    change (binary_normalize prec emax (Z.pos p) e false)
      with (binary_round prec emax false p e).
    unfold binary_round. destruct (shl_align p e _) as [mz ez].
    apply (binary_round_aux_opp false).
  - change (binary_normalize prec emax (- Z.neg p) e false)
      with (binary_round prec emax false p e).
    change (binary_normalize prec emax (Z.neg p) e false)
      with (binary_round prec emax true p e).
    unfold binary_round. destruct (shl_align p e _) as [mz ez].
    rewrite (binary_round_aux_opp false).
    destruct (binary_round_aux prec emax false (Z.pos mz) ez loc_Exact)
      as [s | s | | s m' e'];
      cbn; try reflexivity; rewrite negb_involutive; reflexivity.
Qed.

Lemma SFsub_swap (x y : spec_float) :
  SF64sub y x = SFopp (SF64sub x y) \/
  (SF64sub x y = S754_zero false /\ SF64sub y x = S754_zero false).
Proof.
  destruct x as [sx | sx | | sx mx ex], y as [sy | sy | | sy my ey];
    try (left; cbn; rewrite ?negb_involutive; reflexivity);
    try (destruct sx, sy; cbn; auto; fail).
  cbn. rewrite (Z.min_comm ey ex).
  set (u := cond_Zopp sx (Z.pos (fst (shl_align mx ex (Z.min ex ey))))).
  set (v := cond_Zopp sy (Z.pos (fst (shl_align my ey (Z.min ex ey))))).
  replace (v - u)%Z with (- (u - v))%Z by lia.
  rewrite binary_normalize_opp.
  destruct (u - v)%Z; [right; split; reflexivity | left | left]; reflexivity.
Qed.

Lemma square_sub_sym (a b : float) : (a - b) * (a - b) = (b - a) * (b - a).
Proof.
  apply Prim2SF_inj. rewrite !mul_spec, !sub_spec.
  destruct (SFsub_swap (Prim2SF a) (Prim2SF b)) as [-> | [-> ->]].
  - rewrite SFmul_opp_opp. reflexivity.
  - reflexivity.
Qed.

(** *** Division: [±0 / s] is a zero, [s / s] is 1 *)

Lemma div_zero_l (z s : float) :
  is_zero z = true -> is_nan s = false -> is_zero s = false ->
  z / s = zero \/ z / s = neg_zero.
Proof.
  rewrite !is_zero_spec, is_nan_spec. intros Hz Hnan Hzero.
  assert (Hsf : exists b, Prim2SF (z / s) = S754_zero b).
  { rewrite div_spec. unfold SF64div, SFdiv.
    destruct (Prim2SF z) as [sz | sz | | sz mz ez]; try discriminate.
    destruct (Prim2SF s) as [ss | ss | | ss ms es]; try discriminate; eauto. }
  destruct Hsf as [[|] Hb]; [right | left];
    apply Prim2SF_inj; rewrite Hb; reflexivity.
Qed.

Lemma one_minus_zero_div (s : float) :
  is_nan s = false -> is_zero s = false -> one - zero / s = one.
Proof.
  intros Hnan Hzero.
  destruct (div_zero_l zero s eq_refl Hnan Hzero) as [-> | ->]; reflexivity.
Qed.

Lemma div_eucl_shift (m : positive) :
  Z.div_eucl (Z.shiftl (Z.pos m) 53) (Z.pos m) = (9007199254740992, 0)%Z.
Proof.
  rewrite Z.shiftl_mul_pow2 by lia.
  pose proof (Z.div_eucl_eq (Z.pos m * 2 ^ 53) (Z.pos m) ltac:(lia)) as Heq.
  pose proof (Z.mod_pos_bound (Z.pos m * 2 ^ 53) (Z.pos m) ltac:(lia)) as Hmod.
  unfold Z.modulo in Hmod.
  destruct (Z.div_eucl (Z.pos m * 2 ^ 53) (Z.pos m)) as [q r].
  change (2 ^ 53)%Z with 9007199254740992%Z in *.
  assert (q = 9007199254740992%Z) by nia.
  assert (r = 0%Z) by nia.
  subst. reflexivity.
Qed.

Lemma div_self (s : float) :
  is_finite s = true -> is_zero s = false -> s / s = one.
Proof.
  rewrite is_finite_spec, is_zero_spec. intros Hfin Hzero.
  apply Prim2SF_inj. rewrite div_spec.
  change (Prim2SF one) with (S754_finite false 4503599627370496 (-52)).
  destruct (Prim2SF s) as [ss | ss | | ss m e]; try discriminate.
  unfold SF64div, SFdiv, SFdiv_core_binary.
  replace (Zdigits2 (Z.pos m) + e - (Zdigits2 (Z.pos m) + e))%Z with 0%Z
    by lia.
  rewrite Z.sub_diag.
  change (Z.min (fexp prec emax 0) 0) with (-53)%Z.
  change (0 - -53)%Z with 53%Z. cbv iota.
  rewrite div_eucl_shift, xorb_nilpotent.
  unfold new_location. destruct (Z.even (Z.pos m)); reflexivity.
Qed.

(** *** Multiplication: [x * 1] is [x] *)





(** *** The square root of a negative number is NaN *)

Lemma sqrt_negative (v : float) : (v <? 0) = true -> is_nan (sqrt v) = true.
Proof.
  rewrite ltb_spec, is_nan_spec, sqrt_spec.
  change (Prim2SF 0) with (S754_zero false).
  unfold SFltb, SFcompare, SF64sqrt, SFsqrt.
  destruct (Prim2SF v) as [s | s | | s m e]; try discriminate;
    destruct s; (reflexivity || discriminate).
Qed.

End Binary64.

(** ** Peak shapes *)

Section PeakShapeClaims.
Import PeakShape.
Local Open Scope float_scope.
Local Open Scope result_scope.

Variable scalar_pow : float -> float -> result float.
Variable np_log : float -> float.
Variable np_exp : float -> float.







(** Sample and centre enter both peak shapes through the square of their
    difference only, and that square is the same binary64 number with
    either sign of the difference: exchanging the sample and the centre
    does not change the value. *)
Theorem peak_shapes_swap_sample_and_centre (x c A W : float) :
  lorentzian scalar_pow x A c W = lorentzian scalar_pow c A x W /\
  gaussian scalar_pow np_log np_exp x A c W
  = gaussian scalar_pow np_log np_exp c A x W.
Proof.
  unfold lorentzian, gaussian, square.
  rewrite (square_sub_sym x c). split; reflexivity.
Qed.

End PeakShapeClaims.

Section PeakShapeExamples.
Import PeakShape.
Local Open Scope float_scope.



End PeakShapeExamples.

(** ** Goodness of fit *)

Section MetricsFacts.
Import Metrics.
Local Open Scope float_scope.
Local Open Scope result_scope.

Variable sum : list float -> float.
Variable mean : list float -> float.

Lemma sub_same_length (a b : list float) :
  length a = length b -> sub a b = Ok (zip_with PrimFloat.sub a b).
Proof.
  intros Hlen. unfold sub. rewrite Hlen, Nat.eqb_refl. reflexivity.
Qed.

(** The residuals of a perfect fit are zeros, and so are their squares. *)
Lemma square_residuals_perfect (y : list float) :
  Forall (fun v => is_finite v = true) y ->
  square (zip_with PrimFloat.sub y y) = replicate (length y) 0.
Proof.
  induction 1 as [| v y Hv _ IH]; [reflexivity |].
  cbn. rewrite (sub_self v Hv). f_equal. exact IH.
Qed.

(** The squared residuals of the constant model [m] are the squared
    deviations from [m]. *)
Lemma square_residuals_constant (y : list float) (m : float) :
  square (zip_with PrimFloat.sub (replicate (length y) m) y)
  = square (sub_scalar y m).
Proof.
  induction y as [| v y IH]; [reflexivity |].
  cbn. unfold PeakShape.square.
  rewrite (square_sub_sym m v). f_equal. exact IH.
Qed.

(** A list that is [m] at every position is [replicate _ m]. *)
Lemma constant_list (m : float) (n : nat) (l : list float) :
  length l = n ->
  (forall (i : nat) (v : float), l !! i = Some v -> v = m) ->
  l = replicate n m.
Proof.
  intros <- Hall. induction l as [| v l IH]; simpl; [reflexivity |].
  rewrite (Hall 0%nat v eq_refl). f_equal.
  apply IH. intros i u Hi. apply (Hall (S i) u). exact Hi.
Qed.

(** Squared residuals do not depend on the order of the subtraction. *)
Lemma square_zip_sub_sym (a b : list float) :
  square (zip_with PrimFloat.sub a b) = square (zip_with PrimFloat.sub b a).
Proof.
  revert b. induction a as [| u a IH]; intros [| v b]; try reflexivity.
  cbn. unfold PeakShape.square.
  rewrite (square_sub_sym u v). f_equal. apply IH.
Qed.

Lemma square_broadcast_sym (a0 : float) (b : list float) :
  square (List.map (fun v => a0 - v) b)
  = square (List.map (fun v => v - a0) b).
Proof.
  induction b as [| v b IH]; [reflexivity |].
  cbn. unfold PeakShape.square.
  rewrite (square_sub_sym a0 v). f_equal. exact IH.
Qed.

Lemma square_sub_sym_list (a b : list float) :
  match sub a b, sub b a with
  | Ok r, Ok r' => square r = square r'
  | Raise e, Raise e' => e = e'
  | _, _ => False
  end.
Proof.
  unfold sub. rewrite (Nat.eqb_sym (length b) (length a)).
  destruct (Nat.eqb (length a) (length b)) eqn:Hlen.
  - apply square_zip_sub_sym.
  - destruct a as [| a0 [| a1 a]], b as [| b0 [| b1 b]];
      try discriminate Hlen; try reflexivity;
      try apply square_broadcast_sym;
      symmetry; apply square_broadcast_sym.
Qed.

(** The claim of C3 fails in binary64.  For the observations [0, 1e-200],
    which are not constant, the squared deviations from the mean underflow
    to 0: SST is 0 and the R² of the perfect fit is [1 - 0/0], NaN.  For
    the observations [1e200, -1e200] the squared deviations overflow: SSR
    and SST are infinite and the R² of the constant mean is NaN. *)
Lemma r2_is_nan_at_extremes :
  ((0 =? 1e-200) = false /\
   SST sum_sequential mean_sequential [0; 1e-200] = 0 /\
   r2 sum_sequential mean_sequential [0; 1e-200] [0; 1e-200] = Ok nan) /\
  ((1e200 =? -1e200) = false /\
   mean_sequential [1e200; -1e200] = 0 /\
   SST sum_sequential mean_sequential [1e200; -1e200] = infinity /\
   r2 sum_sequential mean_sequential [0; 0] [1e200; -1e200] = Ok nan).
Proof. repeat split; reflexivity. Qed.

(** C3 (amended): with R² = 1 − SSR/SST as the cell computes it in
    binary64.  A calculated sequence equal to the observations at every
    sample has R² = 1.0 when the observations are finite, the sum of zeros
    is 0.0 and the computed SST is neither zero nor NaN.  A calculated
    sequence equal to mean(y) at every sample has R² = 0.0 when the
    computed SST is finite and not zero. *)
Theorem r2_perfect_and_constant_mean (y : list float) :
  (forall y_hat : list float,
      length y_hat = length y ->
      (forall i : nat, y_hat !! i = y !! i) ->
      Forall (fun v => is_finite v = true) y ->
      sum (replicate (length y) 0) = 0 ->
      is_nan (SST sum mean y) = false ->
      is_zero (SST sum mean y) = false ->
      r2 sum mean y_hat y = Ok 1) /\
  (forall y_hat : list float,
      length y_hat = length y ->
      (forall (i : nat) (v : float), y_hat !! i = Some v -> v = mean y) ->
      is_finite (SST sum mean y) = true ->
      is_zero (SST sum mean y) = false ->
      r2 sum mean y_hat y = Ok 0).
Proof.
  split.
  - intros y_hat _ Hsame Hfin Hsum Hnan Hzero.
    assert (y_hat = y) as -> by (apply list_eq; exact Hsame).
    unfold r2, SSR. rewrite (sub_same_length y y eq_refl). cbn.
    rewrite (square_residuals_perfect y Hfin), Hsum.
    f_equal. apply one_minus_zero_div; assumption.
  - intros y_hat Hlen Hconst Hfin Hzero.
    rewrite (constant_list (mean y) (length y) y_hat Hlen Hconst).
    unfold r2, SSR.
    rewrite sub_same_length by (rewrite length_replicate; reflexivity).
    cbn. rewrite square_residuals_constant. fold (SST sum mean y).
    rewrite (div_self _ Hfin Hzero). reflexivity.
Qed.

(** The cell takes the residuals as calculated minus observed; taking them
    as observed minus calculated gives the same R². *)
Theorem r2_residual_sign (lor_spec_y intensity : list float) :
  (residuals <- sub intensity lor_spec_y ;;;
   Ok (1 - sum (square residuals) / SST sum mean intensity))
  = r2 sum mean lor_spec_y intensity.
Proof.
  unfold r2, SSR.
  pose proof (square_sub_sym_list intensity lor_spec_y) as Hsym.
  destruct (sub intensity lor_spec_y) as [r | e],
           (sub lor_spec_y intensity) as [r' | e'];
    cbn; try contradiction; [rewrite Hsym | rewrite Hsym]; reflexivity.
Qed.

End MetricsFacts.

Section MetricsExamples.
Import Metrics.
Local Open Scope float_scope.

Lemma r2_perfect_and_constant_mean_witness :
  r2 sum_sequential mean_sequential [0; 2] [0; 2] = Ok 1 /\
  r2 sum_sequential mean_sequential [1; 1] [0; 2] = Ok 0.
Proof.
  destruct (r2_perfect_and_constant_mean sum_sequential mean_sequential
              [0; 2]) as [Hperfect Hmean].
  split.
  - apply Hperfect; try reflexivity.
    repeat constructor.
  - apply Hmean; try reflexivity.
    intros [| [| i]] v Hi; simpl in Hi; try discriminate;
      injection Hi as <-; reflexivity.
Defined.

End MetricsExamples.

(** ** The fitting loop *)

Section FitLoopFacts.
Import FitLoop.
Local Open Scope float_scope.

Lemma demo_initial_guess_0 : initial_guess demo_peak_info 0 = Ok [9 * 2; 58; 2].
Proof. reflexivity. Qed.

Lemma demo_initial_guess_1 : initial_guess demo_peak_info 1 = Ok [7 * 3; 18; 3].
Proof. reflexivity. Qed.

Lemma demo_picky_0 :
  fit_peak PeakShape.pow_2 curve_fit_picky demo_spec demo_peak_info 0
  = Raise (RuntimeError "Optimal parameters not found").
Proof.
  unfold fit_peak.
  change (getitem demo_spec "ppm") with (Ok [60; 58; 40; 18; 0]).
  change (getitem demo_spec "intensity") with (Ok [0; 9; 0; 7; 0]).
  rewrite demo_initial_guess_0. simpl. unfold curve_fit_picky.
  reflexivity.
Qed.

Section General.

Variable scalar_pow : float -> float -> result float.
Variable curve_fit :
  model_t -> list float -> list float -> list float ->
  result (popt_t * pcov_t).
Variables nmr_spec peak_info : gmap string (list float).

Local Abbreviation fit := (fit_peak scalar_pow curve_fit nmr_spec peak_info).
Local Abbreviation loop := (fit_loop scalar_pow curve_fit nmr_spec peak_info).

(** What the loop has done when it stops: the results of the peaks it got
    through, appended in order; and either every peak was fitted, or the
    next one raised. *)
Lemma fit_loop_spec (pks : list nat) (st : fit_state) :
  exists results : list (popt_t * pcov_t),
    popt_list (loop pks st).1 = popt_list st ++ results.*1 /\
    pcov_list (loop pks st).1 = pcov_list st ++ results.*2 /\
    (forall (j : nat) (r : popt_t * pcov_t),
        results !! j = Some r ->
        exists pk, pks !! j = Some pk /\ fit pk = Ok r) /\
    match (loop pks st).2 with
    | None => length results = length pks
    | Some e => exists pk, pks !! length results = Some pk /\ fit pk = Raise e
    end.
Proof.
  revert st. induction pks as [| pk rest IH]; intros st.
  - exists []. cbn. rewrite !app_nil_r. repeat split.
    intros j r Hj. rewrite lookup_nil in Hj. discriminate.
  - cbn [fit_loop]. destruct (fit pk) as [[popt pcov] | e] eqn:Hfit.
    + destruct (IH (mk_fit_state (popt_list st ++ [popt])
                                 (pcov_list st ++ [pcov])))
        as (results & Hpopt & Hpcov & Hres & Hend).
      exists ((popt, pcov) :: results).
      rewrite Hpopt, Hpcov. cbn. rewrite <- !app_assoc. cbn.
      repeat split.
      * intros [| j] r Hj; cbn in Hj.
        -- injection Hj as <-. exists pk. split; [reflexivity | exact Hfit].
        -- apply Hres. exact Hj.
      * destruct ((loop rest _).2) as [e |]; cbn.
        -- exact Hend.
        -- f_equal. exact Hend.
    + exists []. cbn. rewrite !app_nil_r. repeat split.
      * intros j r Hj. rewrite lookup_nil in Hj. discriminate.
      * exists pk. split; [reflexivity | exact Hfit].
Qed.

(** A cell that reaches [display] has fitted every candidate, and shows the
    lists the loop built. *)
Lemma displayed_inv (peak_idx : list nat) (st : fit_state)
    (popts : list popt_t) (pcovs : list pcov_t) :
  run_curve_fits scalar_pow curve_fit nmr_spec peak_info peak_idx
  = (st, Displayed popts pcovs) ->
  exists results : list (popt_t * pcov_t),
    popts = results.*1 /\ pcovs = results.*2 /\
    popt_list st = popts /\ pcov_list st = pcovs /\
    length results = length peak_idx /\
    forall (k : nat) (r : popt_t * pcov_t),
      results !! k = Some r -> fit k = Ok r.
Proof.
  unfold run_curve_fits. intros Hrun.
  destruct (fit_loop_spec (seq 0 (length peak_idx)) (mk_fit_state [] []))
    as (results & Hpopt & Hpcov & Hres & Hend).
  destruct (loop (seq 0 (length peak_idx)) (mk_fit_state [] []))
    as [st' [e |]]; cbn in *; [discriminate |].
  injection Hrun as -> <- <-.
  exists results. rewrite length_seq in Hend.
  repeat split; try assumption.
  intros k r Hk. destruct (Hres k r Hk) as (pk & Hpk & Hfit).
  apply lookup_seq in Hpk as [-> _]. exact Hfit.
Qed.

(** A cell in which some fit raises stops at the first such peak. *)
Lemma uncaught_at_first_failure (peak_idx : list nat) (k : nat) (e : exn) :
  (k < length peak_idx)%nat ->
  fit k = Raise e ->
  exists (results : list (popt_t * pcov_t)) (e' : exn),
    run_curve_fits scalar_pow curve_fit nmr_spec peak_info peak_idx
    = (mk_fit_state results.*1 results.*2, Uncaught e') /\
    (length results <= k)%nat /\
    fit (length results) = Raise e' /\
    forall (j : nat) (r : popt_t * pcov_t),
      results !! j = Some r -> fit j = Ok r.
Proof.
  intros Hk Hfail. unfold run_curve_fits.
  destruct (fit_loop_spec (seq 0 (length peak_idx)) (mk_fit_state [] []))
    as (results & Hpopt & Hpcov & Hres & Hend).
  assert (Hfitted : forall j r, results !! j = Some r -> fit j = Ok r).
  { intros j r Hj. destruct (Hres j r Hj) as (pk & Hpk & Hfit).
    apply lookup_seq in Hpk as [-> _]. exact Hfit. }
  assert (Hle : (length results <= k)%nat).
  { destruct (le_lt_dec (length results) k) as [Hle | Hlt]; [exact Hle |].
    destruct (lookup_lt_is_Some_2 results k Hlt) as [r Hr].
    rewrite (Hfitted k r Hr) in Hfail. discriminate. }
  destruct (loop (seq 0 (length peak_idx)) (mk_fit_state [] []))
    as [[popts pcovs] [e' |]]; cbn in *.
  - destruct Hend as (pk & Hpk & Hraise).
    apply lookup_seq in Hpk as [-> _].
    exists results, e'. subst popts pcovs. repeat split; assumption.
  - rewrite length_seq in Hend. lia.
Qed.

End General.

Lemma demo_picky_run :
  run_curve_fits PeakShape.pow_2 curve_fit_picky demo_spec demo_peak_info
    demo_peak_idx
  = (mk_fit_state [] [],
     Uncaught (RuntimeError "Optimal parameters not found")).
Proof.
  unfold run_curve_fits. cbn [demo_peak_idx length seq fit_loop].
  rewrite demo_picky_0. reflexivity.
Qed.

Lemma demo_picky_1 :
  fit_peak PeakShape.pow_2 curve_fit_picky demo_spec demo_peak_info 1
  = Ok ([7 * 3; 18; 3], []).
Proof.
  unfold fit_peak.
  change (getitem demo_spec "ppm") with (Ok [60; 58; 40; 18; 0]).
  change (getitem demo_spec "intensity") with (Ok [0; 9; 0; 7; 0]).
  rewrite demo_initial_guess_1. simpl. unfold curve_fit_picky.
  reflexivity.
Qed.

Lemma demo_echo_run :
  run_curve_fits PeakShape.pow_2 curve_fit_echo demo_spec demo_peak_info
    demo_peak_idx
  = (mk_fit_state [[9 * 2; 58; 2]; [7 * 3; 18; 3]] [[]; []],
     Displayed [[9 * 2; 58; 2]; [7 * 3; 18; 3]] [[]; []]).
Proof. reflexivity. Qed.

End FitLoopFacts.

Section FitLoopClaims.
Import FitLoop.
Local Open Scope float_scope.

Variable scalar_pow : float -> float -> result float.
Variable curve_fit :
  model_t -> list float -> list float -> list float ->
  result (popt_t * pcov_t).
Variables nmr_spec peak_info : gmap string (list float).

(** C4, as the code has it: when the fit of some peak raises, the exception
    of the first peak whose fit raises leaves the cell uncaught; the lists
    hold the results of the peaks before that one, in order, and nothing
    else, so no later peak is fitted. *)
Theorem fit_failure_leaves_the_loop (peak_idx : list nat) (k : nat) (e : exn) :
  (k < length peak_idx)%nat ->
  fit_peak scalar_pow curve_fit nmr_spec peak_info k = Raise e ->
  exists (st : fit_state) (k' : nat) (e' : exn),
    run_curve_fits scalar_pow curve_fit nmr_spec peak_info peak_idx
    = (st, Uncaught e') /\
    (k' <= k)%nat /\
    fit_peak scalar_pow curve_fit nmr_spec peak_info k' = Raise e' /\
    length (popt_list st) = k' /\
    length (pcov_list st) = k' /\
    forall j : nat, (j < k')%nat ->
      exists (popt : popt_t) (pcov : pcov_t),
        popt_list st !! j = Some popt /\
        pcov_list st !! j = Some pcov /\
        fit_peak scalar_pow curve_fit nmr_spec peak_info j = Ok (popt, pcov).
Proof.
  intros Hk Hfail.
  destruct (uncaught_at_first_failure scalar_pow curve_fit nmr_spec peak_info
              peak_idx k e Hk Hfail)
    as (results & e' & Hrun & Hle & Hraise & Hfitted).
  exists (mk_fit_state results.*1 results.*2), (length results), e'.
  cbn. rewrite !length_fmap. repeat split; try assumption.
  intros j Hj.
  destruct (lookup_lt_is_Some_2 results j Hj) as [[popt pcov] Hr].
  exists popt, pcov. rewrite !list_lookup_fmap, Hr. cbn.
  repeat split. apply Hfitted. exact Hr.
Qed.

(** C7: when the loop completes, the two lists have one entry per peak
    candidate, and entry k is the result of the fit of candidate k. *)
Theorem one_result_per_candidate (peak_idx : list nat) (st : fit_state)
    (popts : list popt_t) (pcovs : list pcov_t) :
  run_curve_fits scalar_pow curve_fit nmr_spec peak_info peak_idx
  = (st, Displayed popts pcovs) ->
  popt_list st = popts /\ pcov_list st = pcovs /\
  length popts = length peak_idx /\
  length pcovs = length peak_idx /\
  forall k : nat, (k < length peak_idx)%nat ->
    exists (popt : popt_t) (pcov : pcov_t),
      popts !! k = Some popt /\
      pcovs !! k = Some pcov /\
      fit_peak scalar_pow curve_fit nmr_spec peak_info k = Ok (popt, pcov).
Proof.
  intros Hrun.
  destruct (displayed_inv scalar_pow curve_fit nmr_spec peak_info peak_idx st
              popts pcovs Hrun)
    as (results & -> & -> & Hpopt & Hpcov & Hlen & Hfitted).
  rewrite !length_fmap. repeat split; try assumption.
  intros k Hk. rewrite <- Hlen in Hk.
  destruct (lookup_lt_is_Some_2 results k Hk) as [[popt pcov] Hr].
  exists popt, pcov. rewrite !list_lookup_fmap, Hr. cbn.
  repeat split. apply Hfitted. exact Hr.
Qed.

(** C8: for every candidate k with height h, centre c and width w in
    [peak_info], the initial guess is [h*w, c, w], the fit of candidate k is
    the optimiser called on the Lorentzian, the two columns of the spectrum
    and this guess, and a completed loop holds the optimiser's answer to
    this call at position k. *)
Theorem initial_guess_is_the_estimate
    (xdata ydata heights widths centres : list float) (k : nat)
    (h w c : float) :
  nmr_spec !! "ppm"%string = Some xdata ->
  nmr_spec !! "intensity"%string = Some ydata ->
  peak_info !! "peak_heights"%string = Some heights ->
  peak_info !! "widths"%string = Some widths ->
  peak_info !! "centres"%string = Some centres ->
  heights !! k = Some h ->
  widths !! k = Some w ->
  centres !! k = Some c ->
  initial_guess peak_info k = Ok [h * w; c; w] /\
  fit_peak scalar_pow curve_fit nmr_spec peak_info k
  = curve_fit (PeakShape.lorentzian_array scalar_pow) xdata ydata
      [h * w; c; w] /\
  forall (peak_idx : list nat) (st : fit_state)
         (popts : list popt_t) (pcovs : list pcov_t),
    (k < length peak_idx)%nat ->
    run_curve_fits scalar_pow curve_fit nmr_spec peak_info peak_idx
    = (st, Displayed popts pcovs) ->
    exists (popt : popt_t) (pcov : pcov_t),
      popts !! k = Some popt /\ pcovs !! k = Some pcov /\
      curve_fit (PeakShape.lorentzian_array scalar_pow) xdata ydata
        [h * w; c; w]
      = Ok (popt, pcov).
Proof.
  intros Hx Hy Hh Hw Hc Hhk Hwk Hck.
  assert (Hguess : initial_guess peak_info k = Ok [h * w; c; w]).
  { unfold initial_guess, getitem, index.
    rewrite Hh, Hw, Hc. cbn.
    rewrite Hhk. cbn. rewrite Hwk. cbn. rewrite Hck. reflexivity. }
  assert (Hfit : fit_peak scalar_pow curve_fit nmr_spec peak_info k
                 = curve_fit (PeakShape.lorentzian_array scalar_pow) xdata ydata
                     [h * w; c; w]).
  { unfold fit_peak, getitem. rewrite Hx, Hy. cbn. rewrite Hguess.
    reflexivity. }
  repeat split; try assumption.
  intros peak_idx st popts pcovs Hk Hrun.
  destruct (displayed_inv scalar_pow curve_fit nmr_spec peak_info peak_idx st
              popts pcovs Hrun)
    as (results & -> & -> & _ & _ & Hlen & Hfitted).
  rewrite <- Hlen in Hk.
  destruct (lookup_lt_is_Some_2 results k Hk) as [[popt pcov] Hr].
  exists popt, pcov. rewrite !list_lookup_fmap, Hr. cbn.
  repeat split. rewrite <- Hfit. apply Hfitted. exact Hr.
Qed.

End FitLoopClaims.

Section FitLoopExamples.
Import FitLoop.
Local Open Scope float_scope.

(** C4 refuted as stated: with an optimiser that does not converge for
    the first of two peaks, the cell does not reach its end and the second
    peak, whose fit would succeed, is never fitted. *)
Lemma fit_failures_are_not_local :
  ~ failures_are_local PeakShape.pow_2 curve_fit_picky demo_spec
      demo_peak_info demo_peak_idx.
Proof.
  intros Hlocal.
  specialize (Hlocal 0%nat (RuntimeError "Optimal parameters not found")).
  rewrite demo_picky_run in Hlocal.
  destruct Hlocal as [(popts & pcovs & Hout) _].
  - cbn. lia.
  - exact demo_picky_0.
  - discriminate.
Qed.

Lemma fit_failure_leaves_the_loop_witness :
  exists (st : fit_state) (k' : nat) (e' : exn),
    run_curve_fits PeakShape.pow_2 curve_fit_picky demo_spec demo_peak_info
      demo_peak_idx
    = (st, Uncaught e') /\
    (k' <= 0)%nat /\ length (popt_list st) = k'.
Proof.
  assert (Hk : (0 < length demo_peak_idx)%nat) by (cbn; lia).
  destruct (fit_failure_leaves_the_loop PeakShape.pow_2 curve_fit_picky
              demo_spec
              demo_peak_info demo_peak_idx 0%nat _ Hk demo_picky_0)
    as (st & k' & e' & Hrun & Hle & _ & Hlen & _).
  exists st, k', e'. repeat split; assumption.
Defined.

Lemma one_result_per_candidate_witness :
  length [[9 * 2; 58; 2]; [7 * 3; 18; 3]] = length demo_peak_idx.
Proof.
  exact (proj1 (proj2 (proj2
    (one_result_per_candidate PeakShape.pow_2 curve_fit_echo demo_spec
       demo_peak_info
       demo_peak_idx _ _ _ demo_echo_run)))).
Defined.

Lemma initial_guess_is_the_estimate_witness :
  initial_guess demo_peak_info 1 = Ok [7 * 3; 18; 3] /\
  fit_peak PeakShape.pow_2 curve_fit_echo demo_spec demo_peak_info 1
  = curve_fit_echo (PeakShape.lorentzian_array PeakShape.pow_2)
      [60; 58; 40; 18; 0] [0; 9; 0; 7; 0] [7 * 3; 18; 3].
Proof.
  destruct (initial_guess_is_the_estimate PeakShape.pow_2 curve_fit_echo
              demo_spec
              demo_peak_info [60; 58; 40; 18; 0] [0; 9; 0; 7; 0]
              [9; 7] [2; 3] [58; 18] 1%nat 7 3 18
              eq_refl eq_refl eq_refl eq_refl eq_refl eq_refl eq_refl eq_refl)
    as (Hguess & Hfit & _).
  split; assumption.
Defined.

End FitLoopExamples.

(** ** The ML demo helpers *)

Section DescriptorFacts.
Import MLDemo.

Context {mol : Type}.
Variables (m : mol) (missingVal : pyval).

Local Abbreviation loop := (descriptor_loop m missingVal).

(** One step of the loop stores [descriptor_value]. *)
Lemma descriptor_loop_cons (nm : string) (fn : descriptor_fn mol)
    (rest : list (string * descriptor_fn mol))
    (res : gmap string pyval) (printed : list exn) :
  exists printed' : list exn,
    loop ((nm, fn) :: rest) res printed
    = loop rest (<[nm := descriptor_value m missingVal fn]> res) printed'.
Proof.
  cbn [descriptor_loop]. unfold descriptor_value.
  destruct (fn m) as [val | e]; eauto.
Qed.

(** The loop leaves the names it does not visit alone. *)
Lemma descriptor_loop_other (descriptors : list (string * descriptor_fn mol))
    (res : gmap string pyval) (printed : list exn) (nm : string) :
  nm ∉ descriptors.*1 ->
  (loop descriptors res printed).1 !! nm = res !! nm.
Proof.
  revert res printed.
  induction descriptors as [| [nm' fn] rest IH]; intros res printed Hnm.
  - reflexivity.
  - cbn in Hnm. apply not_elem_of_cons in Hnm as [Hne Hrest].
    destruct (descriptor_loop_cons nm' fn rest res printed) as [p' ->].
    rewrite IH by exact Hrest. apply lookup_insert_ne. congruence.
Qed.

(** The last entry of a name decides its value. *)
Lemma descriptor_loop_last (l1 l2 : list (string * descriptor_fn mol))
    (nm : string) (fn : descriptor_fn mol)
    (res : gmap string pyval) (printed : list exn) :
  nm ∉ l2.*1 ->
  (loop (l1 ++ (nm, fn) :: l2) res printed).1 !! nm
  = Some (descriptor_value m missingVal fn).
Proof.
  intros Hlast. revert res printed.
  induction l1 as [| [nm' fn'] l1 IH]; intros res printed; cbn [app].
  - destruct (descriptor_loop_cons nm fn l2 res printed) as [p' ->].
    rewrite descriptor_loop_other by exact Hlast.
    apply lookup_insert_eq.
  - destruct (descriptor_loop_cons nm' fn' (l1 ++ (nm, fn) :: l2) res printed)
      as [p' ->].
    apply IH.
Qed.

(** The keys of the dictionary: those it had, and every name visited. *)
Lemma descriptor_loop_keys (descriptors : list (string * descriptor_fn mol))
    (res : gmap string pyval) (printed : list exn) (nm : string) :
  is_Some ((loop descriptors res printed).1 !! nm)
  <-> nm ∈ descriptors.*1 \/ is_Some (res !! nm).
Proof.
  revert res printed.
  induction descriptors as [| [nm' fn] rest IH]; intros res printed.
  - cbn. rewrite elem_of_nil. tauto.
  - destruct (descriptor_loop_cons nm' fn rest res printed) as [p' ->].
    rewrite IH. cbn. rewrite elem_of_cons.
    destruct (decide (nm' = nm)) as [-> | Hne].
    + rewrite lookup_insert_eq. split; [intros _ | intros _; right; eauto].
      left. left. reflexivity.
    + rewrite lookup_insert_ne by exact Hne. split.
      * intros [H | H]; [left; right; exact H | right; exact H].
      * intros [[H | H] | H]; [congruence | left; exact H | right; exact H].
Qed.

End DescriptorFacts.

Section DescriptorClaims.
Import MLDemo.

Context {mol : Type}.
Variable _descList : list (string * descriptor_fn mol).

(** An index inside [-len, len) selects an entry of the table. *)
Lemma py_index_in_range (idx : Z) :
  (- Z.of_nat (length _descList) <= idx < Z.of_nat (length _descList))%Z ->
  exists d, py_index _descList idx = Ok d.
Proof.
  intros Hrange. unfold py_index.
  destruct (Z.ltb_spec idx 0) as [Hneg | Hpos].
  - destruct (Z.ltb_spec (idx + Z.of_nat (length _descList)) 0); [lia |].
    destruct (Z.leb_spec (Z.of_nat (length _descList))
                (idx + Z.of_nat (length _descList))); [lia |].
    cbn.
    destruct (lookup_lt_is_Some_2 _descList
                (Z.to_nat (idx + Z.of_nat (length _descList)))) as [d ->];
      [lia | eauto].
  - destruct (Z.ltb_spec idx 0); [lia |].
    destruct (Z.leb_spec (Z.of_nat (length _descList)) idx); [lia |].
    cbn.
    destruct (lookup_lt_is_Some_2 _descList (Z.to_nat idx)) as [d ->];
      [lia | eauto].
Qed.

(** An index outside the table raises, and so does the whole call: the
    selection is not inside the [try]. *)
Lemma getMolDescriptors_index_error (m : mol) (idx : Z) (idxs : list Z)
    (missingVal : pyval) :
  (idx < - Z.of_nat (length _descList) \/ Z.of_nat (length _descList) <= idx)%Z ->
  getMolDescriptors _descList m (Some (idx :: idxs)) missingVal
  = Raise IndexError.
Proof.
  intros Hout. unfold getMolDescriptors, select_descriptors.
  cbn [comprehension]. unfold py_index.
  destruct (Z.ltb_spec idx 0) as [Hneg | Hpos].
  - destruct (Z.ltb_spec (idx + Z.of_nat (length _descList)) 0);
      [reflexivity | lia].
  - destruct (Z.ltb_spec idx 0); [lia |].
    destruct (Z.leb_spec (Z.of_nat (length _descList)) idx);
      [reflexivity | lia].
Qed.

(** C9: once the descriptor list has selected its descriptors, the call
    returns a dictionary whatever the descriptor functions do; its keys are
    exactly the selected names; the value of a name is that of its last
    entry, [missingVal] when that function raises; with distinct names,
    every descriptor whose function raises is mapped to [missingVal]. *)
Theorem getMolDescriptors_total (m : mol) (descriptor_list : option (list Z))
    (missingVal : pyval) (descriptors : list (string * descriptor_fn mol)) :
  select_descriptors _descList descriptor_list = Ok descriptors ->
  exists (res : gmap string pyval) (printed : list exn),
    getMolDescriptors _descList m descriptor_list missingVal
    = Ok (res, printed) /\
    (forall nm : string, is_Some (res !! nm) <-> nm ∈ descriptors.*1) /\
    (forall (l1 l2 : list (string * descriptor_fn mol))
            (nm : string) (fn : descriptor_fn mol),
        descriptors = l1 ++ (nm, fn) :: l2 ->
        nm ∉ l2.*1 ->
        res !! nm = Some (descriptor_value m missingVal fn)) /\
    (forall (nm : string) (fn : descriptor_fn mol) (e : exn),
        NoDup descriptors.*1 ->
        (nm, fn) ∈ descriptors ->
        fn m = Raise e ->
        res !! nm = Some missingVal).
Proof.
  intros Hsel. unfold getMolDescriptors. rewrite Hsel. cbn [rbind].
  exists (descriptor_loop m missingVal descriptors ∅ []).1,
         (descriptor_loop m missingVal descriptors ∅ []).2.
  split; [rewrite <- surjective_pairing; reflexivity |].
  assert (Hlast : forall l1 l2 nm fn,
            descriptors = l1 ++ (nm, fn) :: l2 ->
            nm ∉ l2.*1 ->
            (descriptor_loop m missingVal descriptors ∅ []).1 !! nm
            = Some (descriptor_value m missingVal fn)).
  { intros l1 l2 nm fn -> Hnm. apply descriptor_loop_last. exact Hnm. }
  split; [| split].
  - intros nm. rewrite descriptor_loop_keys, lookup_empty.
    split; [intros [H | [v Hv]]; [exact H | discriminate] | tauto].
  - exact Hlast.
  - intros nm fn e Hnodup Hin Hraise.
    destruct (list_elem_of_split _ _ Hin) as (l1 & l2 & Hsplit).
    rewrite (Hlast l1 l2 nm fn Hsplit).
    + unfold descriptor_value. rewrite Hraise. reflexivity.
    + rewrite Hsplit, fmap_app, fmap_cons in Hnodup.
      apply NoDup_app in Hnodup as (_ & _ & Hnodup).
      apply NoDup_cons in Hnodup as [Hnm _]. exact Hnm.
Qed.

(** For [descriptor_list=None] the exercise version of the later cell is the
    same function; with a list it returns the empty dictionary. *)
Lemma exercise_getMolDescriptors (m : mol) (missingVal : pyval) :
  Exercise.getMolDescriptors _descList m None missingVal
  = getMolDescriptors _descList m None missingVal /\
  forall idxs : list Z,
    Exercise.getMolDescriptors _descList m (Some idxs) missingVal = Ok (∅, []).
Proof.
  split; [| reflexivity].
  unfold getMolDescriptors, Exercise.getMolDescriptors. cbn.
  destruct (descriptor_loop m missingVal _descList ∅ []); reflexivity.
Qed.

End DescriptorClaims.

Section DescriptorExamples.
Import MLDemo.
Local Open Scope string_scope.

(** The empty molecule: the second descriptor raises; the index -1 selects
    the last entry of the table. *)
Lemma getMolDescriptors_total_witness :
  exists (res : gmap string pyval) (printed : list exn),
    getMolDescriptors demo_descList "" (Some [0; 1; -1]%Z) PyNone
    = Ok (res, printed) /\
    (forall nm : string,
        is_Some (res !! nm) <-> nm ∈ ["NumAtoms"; "FirstAtom"; "TPSA"]) /\
    res !! "FirstAtom" = Some PyNone.
Proof.
  destruct (getMolDescriptors_total demo_descList "" (Some [0; 1; -1]%Z)
              PyNone demo_descList eq_refl)
    as (res & printed & Hcall & Hkeys & _ & Hraise).
  exists res, printed. split; [exact Hcall |]. split; [exact Hkeys |].
  apply (Hraise "FirstAtom" first_atom (OtherError "empty molecule")).
  - cbn. repeat (apply NoDup_cons; split);
      rewrite ?not_elem_of_cons; repeat split;
      try discriminate; try apply not_elem_of_nil.
    apply NoDup_nil_2.
  - apply list_elem_of_further, list_elem_of_here.
  - reflexivity.
Defined.

End DescriptorExamples.

Section CactusClaims.
Import MLDemo.

Variable requests_get : string -> result response.

(** C10: a call issues exactly one request, for the structure URL of the
    name; when the server responds, the call returns (it does not raise):
    the body of a truthy response, the string "not found" for a falsy one;
    it sleeps once, and prints its message only for a falsy response. *)
Theorem get_smiles_from_name_total (name : string) (w : world) :
  requests_sent (get_smiles_from_name requests_get name w).2
  = requests_sent w ++ [query_url_of name] /\
  forall r : response,
    requests_get (query_url_of name) = Ok r ->
    (get_smiles_from_name requests_get name w).1
    = Ok (if ok r then text r else "not found"%string) /\
    slept (get_smiles_from_name requests_get name w).2
    = slept w ++ [0.05%float] /\
    stdout (get_smiles_from_name requests_get name w).2
    = stdout w ++ (if ok r then [] else [("Failed to get SMILES for " ++ name)%string]).
Proof.
  unfold get_smiles_from_name.
  change ("https://cactus.nci.nih.gov/chemical/structure/"
          ++ name ++ "/" ++ "smiles")%string
    with (query_url_of name).
  split.
  - destruct (requests_get (query_url_of name)) as [r | e];
      [destruct (ok r) |]; reflexivity.
  - intros r ->. destruct (ok r); cbn; rewrite ?app_nil_r; repeat split.
Qed.

End CactusClaims.

Section CactusExamples.
Import MLDemo.
Local Open Scope string_scope.

Lemma get_smiles_from_name_total_witness :
  (get_smiles_from_name cactus_demo "ethanol" world0).1 = Ok "CCO" /\
  (get_smiles_from_name cactus_demo "unobtainium" world0).1 = Ok "not found".
Proof.
  split.
  - exact (proj1 (proj2 (get_smiles_from_name_total cactus_demo "ethanol"
                           world0) (mk_response true "CCO") eq_refl)).
  - exact (proj1 (proj2 (get_smiles_from_name_total cactus_demo "unobtainium"
                           world0)
                    (mk_response false "<h1>Page not found (404)</h1>")
                    eq_refl)).
Defined.

End CactusExamples.
(** * Further properties of the code *)

(** ** The fitting loop: keys, bounds and what a fit depends on *)

Section FitLoopExtras.
Import FitLoop PeakReport.
Local Open Scope float_scope.

Variable scalar_pow : float -> float -> result float.
Variable curve_fit :
  model_t -> list float -> list float -> list float ->
  result (popt_t * pcov_t).
Variables nmr_spec peak_info : gmap string (list float).

Lemma getitem_Ok (d : gmap string (list float)) (key : string)
    (v : list float) :
  getitem d key = Ok v <-> d !! key = Some v.
Proof.
  unfold getitem. destruct (d !! key); split; intros H; congruence.
Qed.

Lemma index_Ok (a : list float) (pk : nat) (v : float) :
  index a pk = Ok v <-> a !! pk = Some v.
Proof.
  unfold index. destruct (a !! pk); split; intros H; congruence.
Qed.

(** An initial guess that is computed took its three numbers from entry
    [pk] of the three arrays. *)
Lemma initial_guess_inv (pk : nat) (p0 : list float) :
  initial_guess peak_info pk = Ok p0 ->
  exists (heights widths centres : list float) (h w c : float),
    peak_info !! "peak_heights"%string = Some heights /\
    peak_info !! "widths"%string = Some widths /\
    peak_info !! "centres"%string = Some centres /\
    heights !! pk = Some h /\ widths !! pk = Some w /\
    centres !! pk = Some c /\
    p0 = [h * w; c; w].
Proof.
  unfold initial_guess, getitem, index.
  destruct (peak_info !! "peak_heights"%string) as [heights |];
    [| discriminate]; cbn.
  destruct (heights !! pk) as [h |] eqn:Hh; [| discriminate]; cbn.
  destruct (peak_info !! "widths"%string) as [widths |];
    [| discriminate]; cbn.
  destruct (widths !! pk) as [w |] eqn:Hw; [| discriminate]; cbn.
  destruct (peak_info !! "centres"%string) as [centres |];
    [| discriminate]; cbn.
  destruct (centres !! pk) as [c |] eqn:Hc; [| discriminate]; cbn.
  intros [= <-]. exists heights, widths, centres, h, w, c.
  repeat split; assumption.
Qed.

Lemma fit_peak_inv (pk : nat) (r : popt_t * pcov_t) :
  fit_peak scalar_pow curve_fit nmr_spec peak_info pk = Ok r ->
  exists (xdata ydata p0 : list float),
    nmr_spec !! "ppm"%string = Some xdata /\
    nmr_spec !! "intensity"%string = Some ydata /\
    initial_guess peak_info pk = Ok p0 /\
    curve_fit (PeakShape.lorentzian_array scalar_pow) xdata ydata p0 = Ok r.
Proof.
  unfold fit_peak, getitem.
  destruct (nmr_spec !! "ppm"%string) as [xdata |]; [| discriminate]; cbn.
  destruct (nmr_spec !! "intensity"%string) as [ydata |];
    [| discriminate]; cbn.
  destruct (initial_guess peak_info pk) as [p0 |]; [| discriminate]; cbn.
  intros Hfit. exists xdata, ydata, p0. repeat split. exact Hfit.
Qed.

End FitLoopExtras.

Section FitLoopExtraClaims.
Import FitLoop PeakReport.
Local Open Scope float_scope.

Variable scalar_pow : float -> float -> result float.
Variable curve_fit :
  model_t -> list float -> list float -> list float ->
  result (popt_t * pcov_t).
Variables nmr_spec peak_info : gmap string (list float).

Lemma tidy_lookup (key : string) :
  tidy_peak_info peak_info !! key
  = if decide (key ∈ kept_keys) then peak_info !! key else None.
Proof.
  unfold tidy_peak_info. apply option_eq. intros v.
  rewrite map_lookup_filter_Some. cbn.
  destruct (decide (key ∈ kept_keys)) as [Hin | Hout].
  - tauto.
  - split; [tauto | discriminate].
Qed.

Lemma tidy_initial_guess (pk : nat) :
  initial_guess (tidy_peak_info peak_info) pk = initial_guess peak_info pk.
Proof.
  unfold initial_guess, getitem. rewrite !tidy_lookup. reflexivity.
Qed.

Lemma tidy_fit_peak (pk : nat) :
  fit_peak scalar_pow curve_fit nmr_spec (tidy_peak_info peak_info) pk
  = fit_peak scalar_pow curve_fit nmr_spec peak_info pk.
Proof. unfold fit_peak. rewrite tidy_initial_guess. reflexivity. Qed.

Lemma tidy_fit_loop (pks : list nat) (st : fit_state) :
  fit_loop scalar_pow curve_fit nmr_spec (tidy_peak_info peak_info) pks st
  = fit_loop scalar_pow curve_fit nmr_spec peak_info pks st.
Proof.
  revert st. induction pks as [| pk rest IH]; intros st; [reflexivity |].
  cbn [fit_loop]. rewrite tidy_fit_peak.
  destruct (fit_peak scalar_pow curve_fit nmr_spec peak_info pk)
    as [[popt pcov] | e];
    [apply IH | reflexivity].
Qed.

(** The tidy-up cell keeps nothing but the three entries the fit reads, and
    the fitting cell behaves on the tidied dictionary exactly as on the
    original one, whatever else the locator had returned. *)
Theorem tidy_peak_info_preserves_fits (peak_idx : list nat) :
  (forall key : string,
      is_Some (tidy_peak_info peak_info !! key) ->
      key ∈ kept_keys /\ tidy_peak_info peak_info !! key = peak_info !! key) /\
  tidy_peak_info (tidy_peak_info peak_info) = tidy_peak_info peak_info /\
  run_curve_fits scalar_pow curve_fit nmr_spec (tidy_peak_info peak_info)
    peak_idx
  = run_curve_fits scalar_pow curve_fit nmr_spec peak_info peak_idx.
Proof.
  split; [| split].
  - intros key Hsome. rewrite tidy_lookup in *.
    destruct (decide (key ∈ kept_keys)) as [Hin | Hout];
      [split; [exact Hin | reflexivity] |].
    destruct Hsome as [v Hv]. discriminate.
  - apply map_eq. intros key.
    unfold tidy_peak_info at 1. apply option_eq. intros v.
    rewrite map_lookup_filter_Some. cbn. rewrite tidy_lookup.
    destruct (decide (key ∈ kept_keys)) as [Hin | Hout];
      [tauto | split; [tauto | discriminate]].
  - unfold run_curve_fits. rewrite tidy_fit_loop. reflexivity.
Qed.

(** A locator called without a height threshold returns no "peak_heights":
    with the two spectrum columns present and at least one candidate, the
    cell then stops at the first candidate with the KeyError of that key,
    both lists empty, whatever the optimiser would do. *)
Theorem missing_peak_heights_raises (peak_idx : list nat)
    (xdata ydata : list float) :
  nmr_spec !! "ppm"%string = Some xdata ->
  nmr_spec !! "intensity"%string = Some ydata ->
  peak_info !! "peak_heights"%string = None ->
  peak_idx <> [] ->
  run_curve_fits scalar_pow curve_fit nmr_spec peak_info peak_idx
  = (mk_fit_state [] [], Uncaught (KeyError "peak_heights")).
Proof.
  intros Hx Hy Hh Hidx.
  destruct peak_idx as [| p rest]; [congruence |].
  unfold run_curve_fits. cbn [length seq fit_loop].
  unfold fit_peak, initial_guess, getitem. rewrite Hx, Hy, Hh. reflexivity.
Qed.

(** A cell that reaches [display] with at least one candidate had both
    spectrum columns and all three arrays of [peak_info], each array with
    at least as many entries as there are candidates. *)
Theorem displayed_requires_peak_info (peak_idx : list nat) (st : fit_state)
    (popts : list popt_t) (pcovs : list pcov_t) :
  peak_idx <> [] ->
  run_curve_fits scalar_pow curve_fit nmr_spec peak_info peak_idx
  = (st, Displayed popts pcovs) ->
  exists (xdata ydata heights widths centres : list float),
    nmr_spec !! "ppm"%string = Some xdata /\
    nmr_spec !! "intensity"%string = Some ydata /\
    peak_info !! "peak_heights"%string = Some heights /\
    peak_info !! "widths"%string = Some widths /\
    peak_info !! "centres"%string = Some centres /\
    (length peak_idx <= length heights)%nat /\
    (length peak_idx <= length widths)%nat /\
    (length peak_idx <= length centres)%nat.
Proof.
  intros Hidx Hrun.
  destruct (displayed_inv scalar_pow curve_fit nmr_spec peak_info peak_idx st
              popts pcovs Hrun)
    as (results & _ & _ & _ & _ & Hlen & Hfitted).
  assert (Hn : (0 < length peak_idx)%nat)
    by (destruct peak_idx; [congruence | cbn; lia]).
  destruct (lookup_lt_is_Some_2 results (length peak_idx - 1)) as [r Hr];
    [lia |].
  destruct (fit_peak_inv scalar_pow curve_fit nmr_spec peak_info _ r
              (Hfitted _ r Hr))
    as (xdata & ydata & p0 & Hx & Hy & Hguess & _).
  destruct (initial_guess_inv peak_info _ p0 Hguess)
    as (heights & widths & centres & h & w & c
        & Hh & Hw & Hc & Hhk & Hwk & Hck & _).
  exists xdata, ydata, heights, widths, centres.
  apply lookup_lt_Some in Hhk, Hwk, Hck.
  repeat split; try assumption; lia.
Qed.

(** However the cell ends, the two lists have the same length, and no more
    entries than there are candidates. *)
Theorem lists_stay_in_step (peak_idx : list nat) :
  let st :=
    (run_curve_fits scalar_pow curve_fit nmr_spec peak_info peak_idx).1 in
  length (popt_list st) = length (pcov_list st) /\
  (length (popt_list st) <= length peak_idx)%nat.
Proof.
  unfold run_curve_fits.
  destruct (fit_loop_spec scalar_pow curve_fit nmr_spec peak_info
              (seq 0 (length peak_idx)) (mk_fit_state [] []))
    as (results & Hpopt & Hpcov & Hres & _).
  assert (Hle : (length results <= length peak_idx)%nat).
  { destruct (le_lt_dec (length results) (length peak_idx)) as [Hle | Hlt];
      [exact Hle | exfalso].
    destruct (lookup_lt_is_Some_2 results (length peak_idx) Hlt) as [r Hr].
    destruct (Hres _ r Hr) as (pk & Hpk & _).
    apply lookup_seq in Hpk as [_ Hpk]. lia. }
  destruct (fit_loop scalar_pow curve_fit nmr_spec peak_info
              (seq 0 (length peak_idx))
              (mk_fit_state [] [])) as [st [e |]];
    cbn in *; rewrite Hpopt, Hpcov, !length_fmap; split;
    (reflexivity || exact Hle).
Qed.

(** The fit of candidate k reads only entry k of the three arrays: a second
    [peak_info] whose arrays agree with the first at position k gives the
    same fit, whatever the entries of the other candidates are. *)
Theorem fit_uses_only_its_own_entries
    (peak_info' : gmap string (list float)) (k : nat) :
  (forall key : string, key ∈ kept_keys ->
      exists arr arr' : list float,
        peak_info !! key = Some arr /\ peak_info' !! key = Some arr' /\
        arr !! k = arr' !! k) ->
  fit_peak scalar_pow curve_fit nmr_spec peak_info k
  = fit_peak scalar_pow curve_fit nmr_spec peak_info' k.
Proof.
  intros Hagree.
  assert (Hkey : forall key : string, key ∈ kept_keys ->
            (v <- getitem peak_info key ;;; index v k)%result
            = (v <- getitem peak_info' key ;;; index v k)%result).
  { intros key Hin.
    destruct (Hagree key Hin) as (arr & arr' & Ha & Ha' & Hk).
    unfold getitem, index. rewrite Ha, Ha'. cbn. rewrite Hk. reflexivity. }
  assert (Hguess : initial_guess peak_info k = initial_guess peak_info' k).
  { unfold initial_guess.
    destruct (Hagree "peak_heights"%string) as (hs & hs' & Hh & Hh' & Hhk);
      [unfold kept_keys; set_solver |].
    destruct (Hagree "widths"%string) as (ws & ws' & Hw & Hw' & Hwk);
      [unfold kept_keys; set_solver |].
    destruct (Hagree "centres"%string) as (cs & cs' & Hc & Hc' & Hck);
      [unfold kept_keys; set_solver |].
    unfold getitem, index.
    rewrite Hh, Hh', Hw, Hw', Hc, Hc'. cbn.
    rewrite Hhk, Hwk, Hck. reflexivity. }
  unfold fit_peak. rewrite Hguess. reflexivity.
Qed.

End FitLoopExtraClaims.

Section FitLoopExtraExamples.
Import FitLoop PeakReport.
Local Open Scope float_scope.

Lemma missing_peak_heights_raises_witness :
  run_curve_fits PeakShape.pow_2 curve_fit_echo demo_spec ∅ demo_peak_idx
  = (mk_fit_state [] [], Uncaught (KeyError "peak_heights")).
Proof.
  apply (missing_peak_heights_raises PeakShape.pow_2 curve_fit_echo
           demo_spec ∅
           demo_peak_idx [60; 58; 40; 18; 0] [0; 9; 0; 7; 0]);
    try reflexivity.
  discriminate.
Defined.

Lemma displayed_requires_peak_info_witness :
  exists (xdata ydata heights widths centres : list float),
    demo_spec !! "ppm"%string = Some xdata /\
    demo_spec !! "intensity"%string = Some ydata /\
    demo_peak_info !! "peak_heights"%string = Some heights /\
    demo_peak_info !! "widths"%string = Some widths /\
    demo_peak_info !! "centres"%string = Some centres /\
    (length demo_peak_idx <= length heights)%nat /\
    (length demo_peak_idx <= length widths)%nat /\
    (length demo_peak_idx <= length centres)%nat.
Proof.
  apply (displayed_requires_peak_info PeakShape.pow_2 curve_fit_echo
           demo_spec demo_peak_info
           demo_peak_idx
           (mk_fit_state [[9 * 2; 58; 2]; [7 * 3; 18; 3]] [[]; []])
           [[9 * 2; 58; 2]; [7 * 3; 18; 3]] [[]; []]);
    [discriminate | reflexivity].
Defined.

(** A second dictionary that differs from the example in the first
    candidate only. *)
Lemma fit_uses_only_its_own_entries_witness :
  fit_peak PeakShape.pow_2 curve_fit_echo demo_spec demo_peak_info 1
  = fit_peak PeakShape.pow_2 curve_fit_echo demo_spec
      (<["peak_heights"%string := [1; 7]]>
         (<["widths"%string := [5; 3]]>
            (<["centres"%string := [40; 18]]> ∅))) 1.
Proof.
  apply (fit_uses_only_its_own_entries PeakShape.pow_2 curve_fit_echo demo_spec
           demo_peak_info).
  intros key Hin. unfold kept_keys in Hin.
  repeat (apply elem_of_cons in Hin as [-> | Hin]).
  - exists [9; 7], [1; 7]. repeat split.
  - exists [2; 3], [5; 3]. repeat split.
  - exists [58; 18], [40; 18]. repeat split.
  - apply elem_of_nil in Hin. contradiction.
Defined.

End FitLoopExtraExamples.

(** ** The reporting cell and the parameter dictionaries *)

Section PeakReportFacts.
Import FitLoop PeakReport.
Local Open Scope float_scope.

(** The diagonal of a matrix with at least as many columns as needed. *)
Lemma diag_from_lookup (i : nat) (pcov : list (list float)) :
  (forall (r : nat) (row : list float),
      pcov !! r = Some row -> (i + r < length row)%nat) ->
  length (diag_from i pcov) = length pcov /\
  forall j : nat,
    diag_from i pcov !! j = pcov !! j ≫= (fun row => row !! (i + j)%nat).
Proof.
  revert i. induction pcov as [| row rest IH]; intros i Hwide.
  - split; [reflexivity |]. intros j. reflexivity.
  - cbn [diag_from].
    destruct (lookup_lt_is_Some_2 row i) as [v Hv].
    { specialize (Hwide 0%nat row eq_refl). lia. }
    rewrite Hv.
    destruct (IH (S i)) as [Hlen Hlookup].
    { intros r row' Hr. specialize (Hwide (S r) row' Hr). lia. }
    split; [cbn; rewrite Hlen; reflexivity |].
    intros [| j]; cbn.
    + rewrite Nat.add_0_r. symmetry. exact Hv.
    + rewrite Hlookup. replace (S i + j)%nat with (i + S j)%nat by lia.
      reflexivity.
Qed.

Lemma report_text_Ok (format_f : nat -> float -> string)
    (popt perr : list float) :
  (3 <= length popt)%nat -> (3 <= length perr)%nat ->
  exists report : string, report_text format_f popt perr = Ok report.
Proof.
  intros Hpopt Hperr.
  destruct popt as [| a [| c [| w popt]]]; cbn in Hpopt; try lia.
  destruct perr as [| ea [| ec [| ew perr]]]; cbn in Hperr; try lia.
  eexists. reflexivity.
Qed.

Lemma report_text_Raise (format_f : nat -> float -> string)
    (popt perr : list float) :
  (length popt < 3)%nat \/ (length perr < 3)%nat ->
  report_text format_f popt perr = Raise IndexError.
Proof.
  intros Hshort.
  destruct popt as [| a [| c [| w popt]]];
    destruct perr as [| ea [| ec [| ew perr]]];
    cbn in Hshort; try reflexivity; lia.
Qed.

(** The loop gets through when every parameter vector and every error
    vector it meets has three entries. *)
Lemma report_loop_completes (format_f : nat -> float -> string)
    (popt_list errs : list (list float)) (i : nat) (stdout : list string) :
  (forall (k : nat) (popt : list float),
      popt_list !! k = Some popt ->
      (3 <= length popt)%nat /\
      exists perr : list float,
        errs !! (i + k)%nat = Some perr /\ (3 <= length perr)%nat) ->
  exists lines : list string,
    report_loop format_f i popt_list errs stdout = (stdout ++ lines, None) /\
    length lines = (2 * length popt_list)%nat /\
    forall k : nat, (k < length popt_list)%nat ->
      lines !! (2 * k)%nat
      = Some ("Peak " ++ pretty (i + k + 1)%nat)%string.
Proof.
  revert i stdout.
  induction popt_list as [| pk rest IH]; intros i stdout Hshape.
  - exists []. rewrite app_nil_r. repeat split. intros k Hk. cbn in Hk. lia.
  - cbn [report_loop].
    destruct (Hshape 0%nat pk eq_refl) as (Hpk & perr & Herr & Hperr).
    rewrite Nat.add_0_r in Herr. rewrite Herr.
    destruct (report_text_Ok format_f pk perr Hpk Hperr) as [report Hreport].
    unfold report_peak_fit. rewrite Hreport.
    destruct (IH (S i)
                ((stdout ++ [("Peak " ++ pretty (i + 1)%nat)%string])
                 ++ [report]))
      as (lines & Hloop & Hlen & Hheads).
    { intros k popt Hk. destruct (Hshape (S k) popt Hk) as (H3 & perr' & He & H3').
      split; [exact H3 |]. exists perr'.
      replace (S i + k)%nat with (i + S k)%nat by lia. split; assumption. }
    exists (("Peak " ++ pretty (i + 1)%nat)%string :: report :: lines).
    rewrite Hloop, <- !app_assoc. cbn. repeat split.
    + rewrite Hlen. lia.
    + intros [| k] Hk.
      * cbn. rewrite Nat.add_0_r. reflexivity.
      * replace (S k + (S k + 0))%nat with (S (S (2 * k))) by lia.
        assert (Hhead := Hheads k ltac:(cbn in Hk; lia)).
        replace (S i + k + 1)%nat with (i + S k + 1)%nat in Hhead by lia.
        revert Hhead. generalize (2 * k)%nat. intros m Hm. exact Hm.
Qed.

End PeakReportFacts.

Section PeakReportClaims.
Import FitLoop PeakReport.
Local Open Scope float_scope.

(** The reported errors are the square roots of the variances of the fit:
    for a covariance matrix with at least as many columns as rows, the
    error vector has one entry per row, and entry j is the rounded square
    root of [pcov[j][j]], which is NaN when that entry is negative. *)
Theorem errors_are_standard_deviations
    (pcov_list : list (list (list float))) (i j : nat)
    (pcov : list (list float)) (row : list float) (v : float) :
  pcov_list !! i = Some pcov ->
  (forall (r : nat) (row' : list float),
      pcov !! r = Some row' -> (length pcov <= length row')%nat) ->
  pcov !! j = Some row ->
  row !! j = Some v ->
  length (errors pcov_list) = length pcov_list /\
  exists perr : list float,
    errors pcov_list !! i = Some perr /\
    length perr = length pcov /\
    perr !! j = Some (sqrt v) /\
    ((v <? 0) = true -> is_nan (sqrt v) = true).
Proof.
  intros Hi Hwide Hj Hv.
  split; [unfold errors; apply length_map |].
  destruct (diag_from_lookup 0 pcov) as [Hlen Hdiag].
  { intros r row' Hr. specialize (Hwide r row' Hr).
    apply lookup_lt_Some in Hr. lia. }
  exists (List.map PrimFloat.sqrt (diag pcov)).
  unfold errors. rewrite list_lookup_fmap, Hi. split; [reflexivity |].
  split; [rewrite length_map; exact Hlen |].
  split.
  - rewrite list_lookup_fmap. unfold diag. rewrite Hdiag, Hj. cbn.
    rewrite Hv. reflexivity.
  - apply sqrt_negative.
Qed.

Lemma errors_are_standard_deviations_witness :
  exists perr : list float,
    errors [[[4; 0]; [0; 9]]] !! 0%nat = Some perr /\
    length perr = 2%nat /\
    perr !! 1%nat = Some 3 /\
    ((9 <? 0) = true -> is_nan (sqrt 9) = true).
Proof.
  apply (proj2 (errors_are_standard_deviations [[[4; 0]; [0; 9]]] 0 1
                  [[4; 0]; [0; 9]] [0; 9] 9 eq_refl
                  ltac:(intros [| [| r]] row' Hr; cbn in Hr;
                        try discriminate; injection Hr as <-; cbn; lia)
                  eq_refl eq_refl)).
Defined.

Section WithFormat.

Variable format_f : nat -> float -> string.

(** [report_peak_fit] needs three parameters and three errors: with that
    many it prints exactly one report and returns; with fewer of either it
    raises IndexError and prints nothing. *)
Theorem report_peak_fit_needs_three (popt perr : list float)
    (stdout : list string) :
  ((3 <= length popt)%nat /\ (3 <= length perr)%nat ->
   exists report : string,
     report_peak_fit format_f popt perr stdout = (stdout ++ [report], None)) /\
  ((length popt < 3)%nat \/ (length perr < 3)%nat ->
   report_peak_fit format_f popt perr stdout = (stdout, Some IndexError)).
Proof.
  unfold report_peak_fit. split.
  - intros [Hpopt Hperr].
    destruct (report_text_Ok format_f popt perr Hpopt Hperr) as [report ->].
    exists report. reflexivity.
  - intros Hshort. rewrite (report_text_Raise format_f popt perr Hshort).
    reflexivity.
Qed.

Variable scalar_pow : float -> float -> result float.
Variable curve_fit :
  model_t -> list float -> list float -> list float ->
  result (popt_t * pcov_t).
Variables nmr_spec peak_info : gmap string (list float).

(** After a fitting cell that reached its end, with an optimiser that
    returns three parameters and a 3×3 covariance, the reporting cell does
    not raise: it prints two items per candidate, the header "Peak k+1"
    followed by the report of candidate k. *)
Theorem report_cell_after_fits (peak_idx : list nat) (st : fit_state)
    (popts : list popt_t) (pcovs : list pcov_t) (stdout : list string) :
  (forall (f : model_t) (xdata ydata p0 : list float)
          (popt : popt_t) (pcov : pcov_t),
      curve_fit f xdata ydata p0 = Ok (popt, pcov) ->
      length popt = 3%nat /\ length pcov = 3%nat /\
      Forall (fun row => length row = 3%nat) pcov) ->
  run_curve_fits scalar_pow curve_fit nmr_spec peak_info peak_idx
  = (st, Displayed popts pcovs) ->
  exists lines : list string,
    report_cell format_f popts pcovs stdout = (stdout ++ lines, None) /\
    length lines = (2 * length peak_idx)%nat /\
    forall k : nat, (k < length peak_idx)%nat ->
      lines !! (2 * k)%nat = Some ("Peak " ++ pretty (k + 1)%nat)%string.
Proof.
  intros Hshape Hrun.
  destruct (displayed_inv scalar_pow curve_fit nmr_spec peak_info peak_idx st
              popts pcovs Hrun)
    as (results & -> & -> & _ & _ & Hlen & Hfitted).
  assert (Hresult : forall k popt pcov,
            results !! k = Some (popt, pcov) ->
            length popt = 3%nat /\ length pcov = 3%nat /\
            Forall (fun row => length row = 3%nat) pcov).
  { intros k popt pcov Hk.
    destruct (fit_peak_inv scalar_pow curve_fit nmr_spec peak_info k _
                (Hfitted k _ Hk))
      as (xdata & ydata & p0 & _ & _ & _ & Hcall).
    exact (Hshape _ _ _ _ _ _ Hcall). }
  destruct (report_loop_completes format_f results.*1 (errors results.*2)
              0 stdout) as (lines & Hloop & Hlines & Hheads).
  { intros k popt Hk. rewrite list_lookup_fmap in Hk.
    destruct (results !! k) as [[popt' pcov] |] eqn:Hr; [| discriminate].
    injection Hk as <-.
    destruct (Hresult k popt' pcov Hr) as (Hp & Hc & Hrows).
    split; [lia |].
    exists (List.map sqrt (diag pcov)). cbn.
    unfold errors. rewrite !list_lookup_fmap, Hr. split; [reflexivity |].
    destruct (diag_from_lookup 0 pcov) as [Hdiag _].
    { intros r row Hrow.
      assert (length row = 3%nat)
        by (eapply (proj1 (Forall_lookup _ _) Hrows); exact Hrow).
      apply lookup_lt_Some in Hrow. lia. }
    rewrite length_map. unfold diag. lia. }
  exists lines. unfold report_cell. rewrite Hloop.
  rewrite length_fmap, Hlen in Hlines, Hheads.
  repeat split; [exact Hlines |].
  intros k Hk. rewrite (Hheads k Hk). reflexivity.
Qed.

End WithFormat.

(** [collate_fitted_peak_parameters] pairs the k-th parameter name with the
    k-th entry of [popt]: a name whose entry is missing gets no key, entries
    after the third are dropped, and there are no other keys. *)
Theorem collate_reads_back (popt : list float) :
  collate_fitted_peak_parameters popt !! "ampl"%string = popt !! 0%nat /\
  collate_fitted_peak_parameters popt !! "centre"%string = popt !! 1%nat /\
  collate_fitted_peak_parameters popt !! "width"%string = popt !! 2%nat /\
  forall key : string,
    is_Some (collate_fitted_peak_parameters popt !! key) ->
    key ∈ ["ampl"; "centre"; "width"]%string.
Proof.
  unfold collate_fitted_peak_parameters.
  destruct popt as [| a [| c [| w popt]]]; cbn;
    (repeat split; [..| intros key [v Hv]]);
    try reflexivity;
    repeat (rewrite lookup_insert in Hv; case_decide; subst);
    try (rewrite lookup_empty in Hv; discriminate);
    set_solver.
Qed.

End PeakReportClaims.

Section PeakReportExamples.
Import FitLoop PeakReport.
Local Open Scope float_scope.

Lemma curve_fit_unit_shape
    (f : model_t) (xdata ydata p0 : list float)
    (popt : popt_t) (pcov : pcov_t) :
  curve_fit_unit f xdata ydata p0 = Ok (popt, pcov) ->
  length popt = 3%nat /\ length pcov = 3%nat /\
  Forall (fun row => length row = 3%nat) pcov.
Proof.
  unfold curve_fit_unit.
  destruct p0 as [| a [| c [| w [| u p0]]]]; try discriminate.
  intros [= <- <-]. repeat split. repeat constructor.
Qed.

Lemma report_peak_fit_needs_three_witness :
  (exists report : string,
      report_peak_fit format_placeholder [1; 2; 3] [4; 5; 6] []
      = ([] ++ [report], None)) /\
  report_peak_fit format_placeholder [1; 2] [4; 5; 6] []
  = ([], Some IndexError).
Proof.
  split.
  - apply (proj1 (report_peak_fit_needs_three format_placeholder
                    [1; 2; 3] [4; 5; 6] [])).
    cbn. lia.
  - apply (proj2 (report_peak_fit_needs_three format_placeholder
                    [1; 2] [4; 5; 6] [])).
    cbn. lia.
Defined.

Lemma report_cell_after_fits_witness :
  exists lines : list string,
    report_cell format_placeholder
      [[9 * 2; 58; 2]; [7 * 3; 18; 3]]
      [[[1; 0; 0]; [0; 1; 0]; [0; 0; 1]]; [[1; 0; 0]; [0; 1; 0]; [0; 0; 1]]]
      []
    = ([] ++ lines, None) /\
    length lines = (2 * length demo_peak_idx)%nat.
Proof.
  destruct (report_cell_after_fits format_placeholder PeakShape.pow_2
              curve_fit_unit
              demo_spec demo_peak_info demo_peak_idx
              (mk_fit_state [[9 * 2; 58; 2]; [7 * 3; 18; 3]]
                 [[[1; 0; 0]; [0; 1; 0]; [0; 0; 1]];
                  [[1; 0; 0]; [0; 1; 0]; [0; 0; 1]]])
              [[9 * 2; 58; 2]; [7 * 3; 18; 3]]
              [[[1; 0; 0]; [0; 1; 0]; [0; 0; 1]];
               [[1; 0; 0]; [0; 1; 0]; [0; 0; 1]]]
              [] curve_fit_unit_shape eq_refl)
    as (lines & Hcell & Hlen & _).
  exists lines. split; assumption.
Defined.

End PeakReportExamples.

(** ** The descriptor helpers: when they raise, what they print *)

Section DescriptorExtras.
Import MLDemo DescriptorTable.

Context {mol : Type}.
Variable _descList : list (string * descriptor_fn mol).

Local Abbreviation in_table idx :=
  (- Z.of_nat (length _descList) <= idx < Z.of_nat (length _descList))%Z.

Lemma py_index_out_of_range (idx : Z) :
  ~ in_table idx -> py_index _descList idx = Raise IndexError.
Proof.
  intros Hout. unfold py_index.
  destruct (Z.ltb_spec idx 0) as [Hneg | Hpos].
  - destruct (Z.ltb_spec (idx + Z.of_nat (length _descList)) 0);
      [reflexivity | lia].
  - destruct (Z.ltb_spec idx 0); [lia |].
    destruct (Z.leb_spec (Z.of_nat (length _descList)) idx);
      [reflexivity | lia].
Qed.

Lemma select_in_range (idxs : list Z) :
  Forall (fun idx => in_table idx) idxs ->
  exists descriptors : list (string * descriptor_fn mol),
    comprehension (py_index _descList) idxs = Ok descriptors /\
    length descriptors = length idxs.
Proof.
  induction 1 as [| idx idxs Hidx _ IH].
  - exists []. split; reflexivity.
  - destruct (py_index_in_range _descList idx Hidx) as [d Hd].
    destruct IH as (ds & Hds & Hlen).
    exists (d :: ds). cbn [comprehension]. rewrite Hd. cbn. rewrite Hds. cbn.
    split; [reflexivity | rewrite Hlen; reflexivity].
Qed.

Lemma select_out_of_range (idxs : list Z) (idx : Z) :
  idx ∈ idxs -> ~ in_table idx ->
  comprehension (py_index _descList) idxs = Raise IndexError.
Proof.
  intros Hin Hout.
  induction idxs as [| idx' idxs IH]; [apply elem_of_nil in Hin; contradiction |].
  cbn [comprehension].
  destruct (decide (in_table idx')) as [Hidx' | Hidx'].
  - destruct (py_index_in_range _descList idx' Hidx') as [d ->]. cbn.
    apply elem_of_cons in Hin as [-> | Hin]; [contradiction |].
    rewrite (IH Hin). reflexivity.
  - rewrite (py_index_out_of_range idx' Hidx'). reflexivity.
Qed.

Lemma raised_cons (m : mol) (nm : string) (fn : descriptor_fn mol)
    (rest : list (string * descriptor_fn mol)) :
  raised m ((nm, fn) :: rest)
  = match fn m with
    | Ok _ => raised m rest
    | Raise e => e :: raised m rest
    end.
Proof. unfold raised. cbn. destruct (fn m); reflexivity. Qed.

Lemma descriptor_loop_printed (m : mol) (missingVal : pyval)
    (descriptors : list (string * descriptor_fn mol))
    (res : gmap string pyval) (printed : list exn) :
  (descriptor_loop m missingVal descriptors res printed).2
  = printed ++ raised m descriptors.
Proof.
  revert res printed.
  induction descriptors as [| [nm fn] rest IH]; intros res printed.
  - cbn. rewrite app_nil_r. reflexivity.
  - cbn [descriptor_loop]. rewrite raised_cons.
    destruct (fn m) as [val | e]; rewrite IH.
    + reflexivity.
    + rewrite <- app_assoc. reflexivity.
Qed.

Lemma descriptor_loop_no_failure (m : mol) (missingVal missingVal' : pyval)
    (descriptors : list (string * descriptor_fn mol))
    (res : gmap string pyval) (printed : list exn) :
  (forall d, d ∈ descriptors -> exists v, d.2 m = Ok v) ->
  descriptor_loop m missingVal descriptors res printed
  = descriptor_loop m missingVal' descriptors res printed.
Proof.
  revert res printed.
  induction descriptors as [| [nm fn] rest IH]; intros res printed Hok;
    [reflexivity |].
  cbn [descriptor_loop].
  destruct (Hok (nm, fn)) as [v Hv]; [apply list_elem_of_here |].
  cbn in Hv. rewrite Hv. apply IH.
  intros d Hd. apply Hok. apply list_elem_of_further, Hd.
Qed.

Lemma raised_nil (m : mol) (descriptors : list (string * descriptor_fn mol)) :
  (forall d, d ∈ descriptors -> exists v, d.2 m = Ok v) ->
  raised m descriptors = [].
Proof.
  induction descriptors as [| [nm fn] rest IH]; intros Hok; [reflexivity |].
  rewrite raised_cons.
  destruct (Hok (nm, fn)) as [v Hv]; [apply list_elem_of_here |].
  cbn in Hv. rewrite Hv. apply IH. intros d' Hd'. apply Hok.
  apply list_elem_of_further, Hd'.
Qed.

Lemma getMolDescriptors_bad_index (m : mol) (idxs : list Z) (idx : Z)
    (missingVal : pyval) :
  idx ∈ idxs -> ~ in_table idx ->
  getMolDescriptors _descList m (Some idxs) missingVal = Raise IndexError.
Proof.
  intros Hin Hout. unfold getMolDescriptors, select_descriptors.
  destruct idxs as [| idx' idxs]; [apply elem_of_nil in Hin; contradiction |].
  rewrite (select_out_of_range (idx' :: idxs) idx Hin Hout). reflexivity.
Qed.

(** The call raises exactly when a non-empty index list contains an index
    outside the table, and then it raises IndexError: with every index of
    the list inside [-len, len) it returns a dictionary, whatever the
    descriptor functions do. *)
Theorem getMolDescriptors_raises_only_on_bad_index (m : mol)
    (descriptor_list : option (list Z)) (missingVal : pyval) :
  ((forall idxs, descriptor_list = Some idxs -> Forall (fun idx => in_table idx) idxs) ->
   exists (res : gmap string pyval) (printed : list exn),
     getMolDescriptors _descList m descriptor_list missingVal
     = Ok (res, printed)) /\
  (forall (idxs : list Z) (idx : Z),
      descriptor_list = Some idxs -> idx ∈ idxs -> ~ in_table idx ->
      getMolDescriptors _descList m descriptor_list missingVal
      = Raise IndexError).
Proof.
  split.
  - unfold getMolDescriptors, select_descriptors. intros Hrange.
    destruct descriptor_list as [[| idx idxs] |]; cbn [rbind];
      try (eexists _, _; apply f_equal, surjective_pairing).
    destruct (select_in_range (idx :: idxs) (Hrange _ eq_refl))
      as (ds & -> & _).
    cbn [rbind]. eexists _, _. apply f_equal, surjective_pairing.
  - intros idxs idx -> Hin Hout.
    apply (getMolDescriptors_bad_index m idxs idx missingVal Hin Hout).
Qed.

(** One traceback is printed per selected descriptor whose function raises,
    in the order of the selection; when none raises nothing is printed and
    the result does not depend on [missingVal]. *)
Theorem tracebacks_match_failures (m : mol)
    (descriptor_list : option (list Z)) (missingVal : pyval)
    (descriptors : list (string * descriptor_fn mol)) :
  select_descriptors _descList descriptor_list = Ok descriptors ->
  (exists res : gmap string pyval,
      getMolDescriptors _descList m descriptor_list missingVal
      = Ok (res, raised m descriptors)) /\
  ((forall d, d ∈ descriptors -> exists v, d.2 m = Ok v) ->
   raised m descriptors = [] /\
   forall missingVal' : pyval,
     getMolDescriptors _descList m descriptor_list missingVal'
     = getMolDescriptors _descList m descriptor_list missingVal).
Proof.
  intros Hsel. unfold getMolDescriptors. rewrite Hsel. cbn [rbind]. split.
  - exists (descriptor_loop m missingVal descriptors ∅ []).1.
    f_equal. rewrite (surjective_pairing (descriptor_loop _ _ _ _ _)).
    rewrite descriptor_loop_printed. reflexivity.
  - intros Hok. split; [apply raised_nil; exact Hok |].
    intros missingVal'. f_equal.
    apply descriptor_loop_no_failure. exact Hok.
Qed.

(** What the two definitions of [getMolDescriptors] do with the selection:
    without one they are the same function; the exercise version returns the
    empty dictionary for every list and never raises; the demo version
    treats the empty list as no selection and computes every descriptor of
    the table. *)
Theorem two_versions_of_getMolDescriptors (m : mol) (missingVal : pyval) :
  Exercise.getMolDescriptors _descList m None missingVal
  = getMolDescriptors _descList m None missingVal /\
  (forall idxs : list Z,
      Exercise.getMolDescriptors _descList m (Some idxs) missingVal
      = Ok (∅, [])) /\
  getMolDescriptors _descList m (Some []) missingVal
  = getMolDescriptors _descList m None missingVal /\
  exists (res : gmap string pyval) (printed : list exn),
    getMolDescriptors _descList m (Some []) missingVal = Ok (res, printed) /\
    forall nm : string, is_Some (res !! nm) <-> nm ∈ _descList.*1.
Proof.
  split; [| split; [reflexivity | split; [reflexivity |]]].
  - unfold getMolDescriptors, Exercise.getMolDescriptors. cbn.
    destruct (descriptor_loop m missingVal _descList ∅ []); reflexivity.
  - unfold getMolDescriptors. cbn.
    eexists _, _. split; [apply f_equal, surjective_pairing |].
    intros nm. rewrite descriptor_loop_keys, lookup_empty.
    split; [intros [H | [v Hv]]; [exact H | discriminate] | tauto].
Qed.

(** The demo's table of descriptors per molecule: with at least 120 entries
    in the toolkit's table the comprehension returns one dictionary per
    molecule, all with the same keys, the names of the five selected
    entries. *)
Theorem calc_descriptors_rectangular (ROMol : list mol) :
  (120 <= length _descList)%nat ->
  exists (descriptors : list (string * descriptor_fn mol))
         (rows : list (gmap string pyval * list exn)),
    select_descriptors _descList (Some descriptor_list) = Ok descriptors /\
    length descriptors = 5%nat /\
    calc_descriptors _descList ROMol = Ok rows /\
    length rows = length ROMol /\
    forall (row : gmap string pyval * list exn) (nm : string),
      row ∈ rows -> (is_Some (row.1 !! nm) <-> nm ∈ descriptors.*1).
Proof.
  intros Htable.
  destruct (select_in_range descriptor_list) as (descriptors & Hsel & Hlen).
  { unfold descriptor_list. repeat constructor; lia. }
  exists descriptors.
  assert (Hcall : forall m, getMolDescriptors _descList m
                              (Some descriptor_list) PyNone
                            = Ok (descriptor_loop m PyNone descriptors ∅ [])).
  { intros m. unfold getMolDescriptors, select_descriptors.
    unfold descriptor_list at 1. fold descriptor_list. rewrite Hsel.
    reflexivity. }
  assert (Hrows : exists rows,
            calc_descriptors _descList ROMol = Ok rows /\
            length rows = length ROMol /\
            forall row, row ∈ rows ->
              exists m, row = descriptor_loop m PyNone descriptors ∅ []).
  { unfold calc_descriptors.
    induction ROMol as [| m rest IH].
    - exists []. repeat split. intros row Hrow.
      apply elem_of_nil in Hrow. contradiction.
    - destruct IH as (rows & Hrest & Hlenr & Hrowsr).
      exists (descriptor_loop m PyNone descriptors ∅ [] :: rows).
      cbn [comprehension]. rewrite Hcall. cbn [rbind]. rewrite Hrest.
      cbn [rbind]. repeat split; [cbn; lia |].
      intros row Hrow. apply elem_of_cons in Hrow as [-> | Hrow];
        [exists m; reflexivity | apply Hrowsr, Hrow]. }
  destruct Hrows as (rows & Hcalc & Hlenr & Hrow).
  exists rows. repeat split; try assumption.
  - intros Hsome. destruct (Hrow row H) as [m ->].
    apply descriptor_loop_keys in Hsome as [Hin | [v Hv]];
      [exact Hin | rewrite lookup_empty in Hv; discriminate].
  - intros Hin. destruct (Hrow row H) as [m ->].
    apply descriptor_loop_keys. left. exact Hin.
Qed.

(** With fewer than 120 entries in the toolkit's table the demo's selection
    cannot be resolved: the comprehension raises IndexError at the first
    molecule; with no molecule at all it returns the empty list. *)
Theorem calc_descriptors_short_table (ROMol : list mol) :
  (length _descList < 120)%nat ->
  calc_descriptors _descList ROMol
  = match ROMol with
    | [] => Ok []
    | _ :: _ => Raise IndexError
    end.
Proof.
  intros Hshort. destruct ROMol as [| m rest]; [reflexivity |].
  unfold calc_descriptors. cbn [comprehension].
  rewrite (getMolDescriptors_bad_index m descriptor_list 119%Z PyNone).
  - reflexivity.
  - unfold descriptor_list. set_solver.
  - lia.
Qed.

End DescriptorExtras.

Section DescriptorExtraExamples.
Import MLDemo DescriptorTable.
Local Open Scope string_scope.

Lemma getMolDescriptors_raises_only_on_bad_index_witness :
  (exists (res : gmap string pyval) (printed : list exn),
      getMolDescriptors demo_descList "CCO" (Some [0; 1; -1]%Z) PyNone
      = Ok (res, printed)) /\
  getMolDescriptors demo_descList "CCO" (Some [0; 5]%Z) PyNone
  = Raise IndexError.
Proof.
  split.
  - apply (proj1 (getMolDescriptors_raises_only_on_bad_index demo_descList
                    "CCO" (Some [0; 1; -1]%Z) PyNone)).
    intros idxs [= <-]. repeat constructor; cbn; lia.
  - apply (proj2 (getMolDescriptors_raises_only_on_bad_index demo_descList
                    "CCO" (Some [0; 5]%Z) PyNone) [0; 5]%Z 5%Z eq_refl).
    + apply list_elem_of_further, list_elem_of_here.
    + cbn. lia.
Defined.

Lemma tracebacks_match_failures_witness :
  exists res : gmap string pyval,
    getMolDescriptors demo_descList "" (Some [0; 1; -1]%Z) PyNone
    = Ok (res, [OtherError "empty molecule"]).
Proof.
  exact (proj1 (tracebacks_match_failures demo_descList ""
                  (Some [0; 1; -1]%Z) PyNone demo_descList eq_refl)).
Defined.

Lemma calc_descriptors_rectangular_witness :
  exists (descriptors : list (string * descriptor_fn string))
         (rows : list (gmap string pyval * list exn)),
    select_descriptors demo_table (Some descriptor_list) = Ok descriptors /\
    length descriptors = 5%nat /\
    calc_descriptors demo_table ["CCO"; "CO"] = Ok rows /\
    length rows = 2%nat.
Proof.
  assert (Hlen : (120 <= length demo_table)%nat)
    by (unfold demo_table; rewrite length_fmap, length_seq; lia).
  destruct (calc_descriptors_rectangular demo_table ["CCO"; "CO"] Hlen)
    as (descriptors & rows & Hsel & H5 & Hcalc & Hrows & _).
  exists descriptors, rows. repeat split; assumption.
Defined.

Lemma calc_descriptors_short_table_witness :
  calc_descriptors demo_descList ["CCO"; "CO"] = Raise IndexError.
Proof.
  apply (calc_descriptors_short_table demo_descList ["CCO"; "CO"]).
  cbn. lia.
Defined.

End DescriptorExtraExamples.

(** ** The name lookup: failed requests and the sentinel *)

Section CactusExtras.
Import MLDemo.

Variable requests_get : string -> result response.

(** When the request itself raises, the call raises the same exception: one
    request has been issued, and the call has neither slept nor printed. *)
Theorem get_smiles_from_name_request_fails (name : string) (w : world)
    (e : exn) :
  requests_get (query_url_of name) = Raise e ->
  get_smiles_from_name requests_get name w
  = (Raise e,
     mk_world (requests_sent w ++ [query_url_of name]) (slept w) (stdout w)).
Proof.
  intros Hget. unfold get_smiles_from_name.
  change ("https://cactus.nci.nih.gov/chemical/structure/"
          ++ name ++ "/" ++ "smiles")%string
    with (query_url_of name).
  rewrite Hget. reflexivity.
Qed.

(** The sentinel is in band: for a request that gets a response, the call
    returns "not found" exactly when the response is falsy or its body is
    the text "not found" itself. *)
Theorem not_found_is_ambiguous (name : string) (w : world) (r : response) :
  requests_get (query_url_of name) = Ok r ->
  ((get_smiles_from_name requests_get name w).1 = Ok "not found"%string
   <-> ok r = false \/ text r = "not found"%string).
Proof.
  intros Hget. unfold get_smiles_from_name.
  change ("https://cactus.nci.nih.gov/chemical/structure/"
          ++ name ++ "/" ++ "smiles")%string
    with (query_url_of name).
  rewrite Hget. destruct (ok r); cbn.
  - split; [intros [= ->]; right; reflexivity |].
    intros [Hfalse | ->]; [discriminate | reflexivity].
  - split; [intros _; left; reflexivity | reflexivity].
Qed.

End CactusExtras.

Section CactusExtraExamples.
Import MLDemo.

Lemma get_smiles_from_name_request_fails_witness :
  get_smiles_from_name (fun _ => Raise (OtherError "ConnectionError"))
    "ethanol" world0
  = (Raise (OtherError "ConnectionError"),
     mk_world [query_url_of "ethanol"] [] []).
Proof.
  exact (get_smiles_from_name_request_fails
           (fun _ => Raise (OtherError "ConnectionError"))
           "ethanol" world0 (OtherError "ConnectionError") eq_refl).
Defined.

Lemma not_found_is_ambiguous_witness :
  (get_smiles_from_name cactus_demo "unobtainium" world0).1
  = Ok "not found"%string.
Proof.
  apply (proj2 (not_found_is_ambiguous cactus_demo "unobtainium" world0
                  (mk_response false "<h1>Page not found (404)</h1>")
                  eq_refl)).
  left. reflexivity.
Defined.

End CactusExtraExamples.
